(** * GLOM Auth API: the login handler of [index.js] and its JSON file store

    A shallow embedding of [loadUsers], [saveUsers] and the [POST /login]
    handler, over a model of the JavaScript values that [JSON.parse] and
    [express.json()] produce, followed by the properties of the login protocol.

    What the model takes from outside the source:
    - the text of [users.json] is known by what [JSON.parse] makes of it, and
      [JSON.stringify] by what reading its text back gives ([written]);
    - whether a [writeFileSync] goes through is given with each request, and
      a write that throws leaves the file as it was;
    - the handler has no [await]: a call runs to completion, so requests are
      served one after the other ([serve]). *)

From Stdlib Require Import ZArith NArith Bool String Ascii Lia.
From Stdlib Require Import PrimFloat.
From stdpp Require Import base option list strings.

Open Scope string_scope.
Open Scope list_scope.

(** ** JavaScript values *)

(** A JavaScript string is a sequence of UTF-16 code units (numbers below
    65536; nothing here depends on the bound). *)
Definition jsstring := list N.

(** A string literal of the source, one code unit per character. *)
Definition lit (s : string) : jsstring :=
  List.map N_of_ascii (list_ascii_of_string s).

#[local] Set Warnings "-register-all".

(** What [JSON.parse] returns: [null], booleans, IEEE doubles, strings, arrays
    and objects.  An object lists its own properties in enumeration order. *)
Inductive Json : Type :=
  | JNull
  | JBool (b : bool)
  | JNum (x : float)
  | JStr (s : jsstring)
  | JArr (items : list Json)
  | JObj (props : list (jsstring * Json)).

(** A value of the handler: [undefined] ([None]) or a JSON value. *)
Definition value := option Json.

Inductive Exn := TypeError | SyntaxError | SystemError.

(** The completion of an expression: a value, or a thrown exception. *)
Inductive Completion (A : Type) :=
  | Normal (a : A)
  | Throw (e : Exn).
Arguments Normal {A} a.
Arguments Throw {A} e.

Fixpoint str_eqb (s t : jsstring) : bool :=
  match s, t with
  | [], [] => true
  | c :: s', d :: t' => N.eqb c d && str_eqb s' t'
  | _, _ => false
  end.

(** [ToBoolean]: [undefined], [null], [false], [0], [-0], [NaN] and the empty string are falsy. *)
Definition truthy (v : value) : bool :=
  match v with
  | None => false
  | Some JNull => false
  | Some (JBool b) => b
  | Some (JNum x) => negb (is_zero x || is_nan x)
  | Some (JStr s) => negb (length s =? 0)%nat
  | Some (JArr _) => true
  | Some (JObj _) => true
  end.

(** [typeof v === "string"] *)
Definition is_string (v : value) : bool :=
  match v with
  | Some (JStr _) => true
  | _ => false
  end.

(** [a === b].  Arrays and objects compare by reference; every comparison of
    the handler has one operand from the request body and the other from the
    parsed file, two separate allocations, so two such operands are never
    the same object. *)
Definition strict_eq (a b : value) : bool :=
  match a, b with
  | None, None => true
  | Some JNull, Some JNull => true
  | Some (JBool x), Some (JBool y) => Bool.eqb x y
  | Some (JNum x), Some (JNum y) => PrimFloat.eqb x y
  | Some (JStr s), Some (JStr t) => str_eqb s t
  | _, _ => false
  end.

Fixpoint assoc (k : jsstring) (ps : list (jsstring * Json)) : value :=
  match ps with
  | [] => None
  | (k', j) :: rest => if str_eqb k' k then Some j else assoc k rest
  end.

(** [v.k] for a key that no prototype defines and that is neither an index
    nor [length] (the handler reads [users], [username], [password], [hwid]):
    a [TypeError] on [undefined] and [null], the own property of an object,
    [undefined] on everything else. *)
Definition get (v : value) (k : jsstring) : Completion value :=
  match v with
  | None => Throw TypeError
  | Some JNull => Throw TypeError
  | Some (JObj ps) => Normal (assoc k ps)
  | Some _ => Normal None
  end.

(** ECMAScript [WhiteSpace] and [LineTerminator] code units, what [trim] strips. *)
Definition is_white_space (c : N) : bool :=
  ((9 <=? c) && (c <=? 13) || (c =? 32) || (c =? 160) || (c =? 5760)
   || (8192 <=? c) && (c <=? 8202) || (c =? 8232) || (c =? 8233)
   || (c =? 8239) || (c =? 8287) || (c =? 12288) || (c =? 65279))%N.

Fixpoint trimStart (s : jsstring) : jsstring :=
  match s with
  | [] => []
  | c :: s' => if is_white_space c then trimStart s' else s
  end.

Definition trimEnd (s : jsstring) : jsstring := rev (trimStart (rev s)).

Definition trim (s : jsstring) : jsstring := trimEnd (trimStart s).

(** [v.trim()]: only a string has the method; on any other value of this
    model the call throws (reading a property of [undefined] or [null], or
    calling what is not a function). *)
Definition call_trim (v : value) : Completion jsstring :=
  match v with
  | Some (JStr s) => Normal (trim s)
  | _ => Throw TypeError
  end.

(** [o.k = v] on an object: the property keeps its place when it exists and
    is appended otherwise. *)
Fixpoint put (k : jsstring) (j : Json) (ps : list (jsstring * Json)) : list (jsstring * Json) :=
  match ps with
  | [] => [(k, j)]
  | (k', j') :: rest => if str_eqb k' k then (k', j) :: rest else (k', j') :: put k j rest
  end.

Fixpoint remove (k : jsstring) (ps : list (jsstring * Json)) : list (jsstring * Json) :=
  match ps with
  | [] => []
  | (k', j') :: rest => if str_eqb k' k then remove k rest else (k', j') :: remove k rest
  end.

(** [o.k = v].  A property set to [undefined] reads as [undefined] and is
    left out by [JSON.stringify], as if it were not there.  On a value that
    is not an object the assignment leaves the JSON content as it is. *)
Definition assign (o : Json) (k : jsstring) (v : value) : Json :=
  match o with
  | JObj ps =>
      match v with
      | Some j => JObj (put k j ps)
      | None => JObj (remove k ps)
      end
  | _ => o
  end.

(** ** The file [users.json] and the world of the handler *)

(** The text of a file, known by what [JSON.parse] makes of it. *)
Inductive Text :=
  | Malformed
  | Encodes (j : Json).

(** [DATA_FILE] on disk: not there, there but [readFileSync] throws, or there with a text. *)
Inductive File :=
  | Absent
  | Unreadable
  | Holds (t : Text).

Inductive FsCall := ExistsSync | ReadFileSync | WriteFileSync.

Record World := {
  users_json : File;             (* the file at DATA_FILE *)
  console : list string;         (* lines written by console.error, oldest first *)
  fs_calls : list FsCall         (* calls made to fs, oldest first *)
}.

Definition called (c : FsCall) (w : World) : World :=
  {| users_json := users_json w; console := console w; fs_calls := fs_calls w ++ [c] |}.

(** Statements run in a world and complete normally or throw. *)
Definition M (A : Type) : Type := World -> Completion A * World.

Definition ret {A} (a : A) : M A := fun w => (Normal a, w).

Definition bind {A B} (m : M A) (k : A -> M B) : M B :=
  fun w =>
    match m w with
    | (Normal a, w') => k a w'
    | (Throw e, w') => (Throw e, w')
    end.

Definition lift {A} (c : Completion A) : M A := fun w => (c, w).

(** [try { body } catch (err) { handler }] *)
Definition try_catch {A} (body : M A) (handler : Exn -> M A) : M A :=
  fun w =>
    match body w with
    | (Normal a, w') => (Normal a, w')
    | (Throw e, w') => handler e w'
    end.

Notation "'let!' x ':=' e 'in' k" := (bind e (fun x => k))
  (at level 10, x name, e at level 100, k at level 200).

Definition existsSync : M bool :=
  fun w =>
    (Normal (match users_json w with Absent => false | _ => true end), called ExistsSync w).

Definition readFileSync : M Text :=
  fun w =>
    match users_json w with
    | Holds t => (Normal t, called ReadFileSync w)
    | _ => (Throw SystemError, called ReadFileSync w)
    end.

(** [fs.writeFileSync(DATA_FILE, text)].  Whether the write goes through is
    the environment's choice, [succeeds]; a write that throws is taken to
    throw before the file is touched (as when it cannot be opened). *)
Definition writeFileSync (succeeds : bool) (t : Text) : M unit :=
  fun w =>
    if succeeds
    then (Normal tt, called WriteFileSync
            {| users_json := Holds t; console := console w; fs_calls := fs_calls w |})
    else (Throw SystemError, called WriteFileSync w).

Definition logged (line : string) (w : World) : World :=
  {| users_json := users_json w; console := console w ++ [line]; fs_calls := fs_calls w |}.

Definition console_error (line : string) : M unit :=
  fun w => (Normal tt, logged line w).

Definition JSON_parse (t : Text) : Completion Json :=
  match t with
  | Encodes j => Normal j
  | Malformed => Throw SyntaxError
  end.

(** What reading back the text of [JSON.stringify(j, null, 2)] gives: [NaN]
    and the infinities are written as [null], [-0] as [0], every other
    number, every string and the order of the properties are kept. *)
Fixpoint written (j : Json) : Json :=
  match j with
  | JNum x =>
      if is_nan x || is_infinity x then JNull
      else if is_zero x then JNum zero
      else JNum x
  | JArr items => JArr (List.map written items)
  | JObj props => JObj (List.map (fun p => (fst p, written (snd p))) props)
  | _ => j
  end.

Definition JSON_stringify (j : Json) : Text := Encodes (written j).

(** ** The source *)

Definition empty_store : Json := JObj [(lit "users", JArr [])].

(** [function loadUsers()] *)
Definition loadUsers : M Json :=
  let! present := existsSync in
  if negb present then ret empty_store
  else
    try_catch
      (let! raw := readFileSync in
       lift (JSON_parse raw))
      (fun err =>
         let! _ := console_error "Failed to read users.json:" in
         ret empty_store).

(** [function saveUsers(data)] *)
Definition saveUsers (write_succeeds : bool) (data : Json) : M bool :=
  try_catch
    (let! _ := writeFileSync write_succeeds (JSON_stringify data) in
     ret true)
    (fun err =>
       let! _ := console_error "Failed to write users.json:" in
       ret false).

Inductive Code :=
  | OK
  | HWID_REGISTERED
  | MISSING_FIELDS
  | HWID_REQUIRED
  | INVALID_CREDENTIALS
  | HWID_MISMATCH
  | SERVER_ERROR.

Record Response := {
  status : Z;
  success : bool;
  code : Code;
  message : string
}.

(** [items.find(pred)], from position [i]: the first element that satisfies
    [pred], with its position, which stands for the reference that [find]
    returns. *)
Fixpoint find_from (pred : Json -> Completion bool) (items : list Json) (i : nat)
  : Completion (option (nat * Json)) :=
  match items with
  | [] => Normal None
  | u :: rest =>
      match pred u with
      | Throw e => Throw e
      | Normal true => Normal (Some (i, u))
      | Normal false => find_from pred rest (S i)
      end
  end.

(** [v.find(pred)]: only an array has the method. *)
Definition call_find (v : value) (pred : Json -> Completion bool)
  : Completion (option (nat * Json)) :=
  match v with
  | Some (JArr items) => find_from pred items 0
  | _ => Throw TypeError
  end.

(** [data] after an assignment through [user], which is [data.users[i]]. *)
Definition with_user (data : Json) (i : nat) (user' : Json) : Json :=
  match get (Some data) (lit "users") with
  | Normal (Some (JArr items)) => assign data (lit "users") (Some (JArr (<[i:=user']> items)))
  | _ => data
  end.

(** [x || y], where evaluating [y] may throw *)
Definition or_else (x : bool) (y : Completion bool) : Completion bool :=
  if x then Normal true else y.

(** [v.trim().length === 0] *)
Definition trims_to_empty (v : value) : Completion bool :=
  match call_trim v with
  | Normal t => Normal (length t =? 0)%nat
  | Throw e => Throw e
  end.

(** The callback of [find]: [u => u.username === username] *)
Definition username_is (username : value) (u : Json) : Completion bool :=
  match get (Some u) (lit "username") with
  | Normal name => Normal (strict_eq name username)
  | Throw e => Throw e
  end.

(** [app.post("/login", (req, res) => ...)], on [req.body]; [write_succeeds]
    tells whether a [writeFileSync] during this request goes through. *)
Definition login (write_succeeds : bool) (body : value) : M Response :=
  let fields := if truthy body then body else Some (JObj []) in
  let! username := lift (get fields (lit "username")) in
  let! password := lift (get fields (lit "password")) in
  let! hwid := lift (get fields (lit "hwid")) in
  if negb (truthy username) || negb (truthy password) then
    ret {| status := 400; success := false; code := MISSING_FIELDS;
           message := "username and password are required" |}
  else
  let! no_hwid := lift (or_else (negb (truthy hwid) || negb (is_string hwid))
                                (trims_to_empty hwid)) in
  if no_hwid then
    ret {| status := 400; success := false; code := HWID_REQUIRED;
           message := "HWID is required" |}
  else
  let! data := loadUsers in
  let! users := lift (get (Some data) (lit "users")) in
  let! user := lift (call_find users (username_is username)) in
  match user with
  | None =>
      ret {| status := 401; success := false; code := INVALID_CREDENTIALS;
             message := "Invalid username or password" |}
  | Some (i, user) =>
      let! user_password := lift (get (Some user) (lit "password")) in
      if negb (strict_eq user_password password) then
        ret {| status := 401; success := false; code := INVALID_CREDENTIALS;
               message := "Invalid username or password" |}
      else
      let! user_hwid := lift (get (Some user) (lit "hwid")) in
      let! unbound := lift (or_else (negb (truthy user_hwid)) (trims_to_empty user_hwid)) in
      if unbound then
        let data := with_user data i (assign user (lit "hwid") hwid) in
        let! ok := saveUsers write_succeeds data in
        if negb ok then
          ret {| status := 500; success := false; code := SERVER_ERROR;
                 message := "Failed to save HWID" |}
        else
          ret {| status := 200; success := true; code := HWID_REGISTERED;
                 message := "First login on this account, HWID registered" |}
      else
      if negb (strict_eq user_hwid hwid) then
        ret {| status := 403; success := false; code := HWID_MISMATCH;
               message := "This account is already bound to another device" |}
      else
        ret {| status := 200; success := true; code := OK;
               message := "Login successful" |}
  end.

(** ** Requests, stores and runs *)

(** The field [k] of the request, as the destructuring of [req.body || {}] binds it. *)
Definition field (body : value) (k : jsstring) : value :=
  match get (if truthy body then body else Some (JObj [])) k with
  | Normal v => v
  | Throw _ => None
  end.

(** The property [k] of a record of the store. *)
Definition prop (u : Json) (k : jsstring) : value :=
  match get (Some u) k with
  | Normal v => v
  | Throw _ => None
  end.

(** A string of white space only (the empty string included). *)
Definition blank (s : jsstring) : bool := forallb is_white_space s.

(** Step 2 rejects an [hwid] that is absent, falsy, not a string, or blank. *)
Definition hwid_missing (hwid : value) : bool :=
  match hwid with
  | Some (JStr s) => blank s
  | _ => true
  end.

(** A stored [hwid] that the handler takes as not yet bound: absent, falsy, or a blank string. *)
Definition unbound (stored : value) : bool :=
  match stored with
  | Some (JStr s) => blank s
  | _ => negb (truthy stored)
  end.

(** A stored [hwid] on which the test of line 97 does not throw: a string, or a falsy value. *)
Definition testable (stored : value) : bool := is_string stored || negb (truthy stored).

(** A request that passes steps 1 and 2. *)
Definition well_formed (body : value) : bool :=
  truthy (field body (lit "username")) && truthy (field body (lit "password"))
  && negb (hwid_missing (field body (lit "hwid"))).

(** What [loadUsers] returns from a given file. *)
Definition loaded (f : File) : Json :=
  match f with
  | Holds (Encodes j) => j
  | _ => empty_store
  end.

(** A file from which [loadUsers] gets a parsed document. *)
Definition readable (f : File) : bool :=
  match f with
  | Holds (Encodes _) => true
  | _ => false
  end.

(** The records of a store, when [data.users] is an array. *)
Definition records (data : Json) : option (list Json) :=
  match data with
  | JObj ps =>
      match assoc (lit "users") ps with
      | Some (JArr items) => Some items
      | _ => None
      end
  | _ => None
  end.

(** The [hwid] of the record at position [i] of a store. *)
Definition hwid_at (data : Json) (i : nat) : option value :=
  match records data with
  | Some items =>
      match items !! i with
      | Some u => Some (prop u (lit "hwid"))
      | None => None
      end
  | None => None
  end.

(** The stored [hwid] of the record at position [i], as a load of the store shows it. *)
Definition stored_hwid (w : World) (i : nat) : option value :=
  match fst (loadUsers w) with
  | Normal data => hwid_at data i
  | Throw _ => None
  end.

(** The record that the lookup of the handler selects, with its position:
    the first one whose [username] is the requested one. *)
Definition lookup_user (data : Json) (username : value) : Completion (option (nat * Json)) :=
  match get (Some data) (lit "users") with
  | Normal users => call_find users (username_is username)
  | Throw e => Throw e
  end.

(** A request as the server receives it: the parsed body, and whether a
    write to the file goes through while it is served. *)
Record Request := {
  write_succeeds : bool;
  body : value
}.

(** Requests served one after the other; a handler runs to completion before the next starts. *)
Fixpoint serve (reqs : list Request) (w : World) : list (Completion Response) * World :=
  match reqs with
  | [] => ([], w)
  | r :: rest =>
      let '(out, w1) := login (write_succeeds r) (body r) w in
      let '(outs, w2) := serve rest w1 in
      (out :: outs, w2)
  end.

(** The same body sent again, once for each entry of [oks], which tells
    whether a write would go through during that request. *)
Definition repeated (body : value) (oks : list bool) : list Request :=
  List.map (fun ok => {| write_succeeds := ok; body := body |}) oks.

(** ** The run of the handler *)

(** The world after [loadUsers] has run: the calls it makes and the line it logs. *)
Definition after_load (w : World) : World :=
  match users_json w with
  | Absent => called ExistsSync w
  | Holds (Encodes _) => called ReadFileSync (called ExistsSync w)
  | _ => logged "Failed to read users.json:" (called ReadFileSync (called ExistsSync w))
  end.

(** The world after a [saveUsers] that failed. *)
Definition after_failed_save (w : World) : World :=
  logged "Failed to write users.json:" (called WriteFileSync w).

(** The world after a [saveUsers] that wrote [data]. *)
Definition after_save (data : Json) (w : World) : World :=
  {| users_json := Holds (JSON_stringify data);
     console := console w;
     fs_calls := fs_calls w ++ [WriteFileSync] |}.

(** The responses of the handler. *)
Definition missing_fields : Response :=
  {| status := 400; success := false; code := MISSING_FIELDS;
     message := "username and password are required" |}.
Definition hwid_required : Response :=
  {| status := 400; success := false; code := HWID_REQUIRED;
     message := "HWID is required" |}.
Definition invalid_credentials : Response :=
  {| status := 401; success := false; code := INVALID_CREDENTIALS;
     message := "Invalid username or password" |}.
Definition server_error : Response :=
  {| status := 500; success := false; code := SERVER_ERROR;
     message := "Failed to save HWID" |}.
Definition hwid_registered : Response :=
  {| status := 200; success := true; code := HWID_REGISTERED;
     message := "First login on this account, HWID registered" |}.
Definition hwid_mismatch : Response :=
  {| status := 403; success := false; code := HWID_MISMATCH;
     message := "This account is already bound to another device" |}.
Definition login_ok : Response :=
  {| status := 200; success := true; code := OK;
     message := "Login successful" |}.

(** What the handler decides from the request and the loaded store, before
    anything is written. *)
Inductive Verdict :=
  | Rejected (r : Response)      (* by steps 1 and 2; the store is not loaded *)
  | Crashed (e : Exn)            (* an exception leaves the handler *)
  | Answered (r : Response)      (* from the loaded store, nothing to write *)
  | Registering (data : Json).   (* the store to save, with the new hwid *)

Definition verdict (body : value) (data : Json) : Verdict :=
  let username := field body (lit "username") in
  let password := field body (lit "password") in
  let hwid := field body (lit "hwid") in
  if negb (truthy username) || negb (truthy password) then Rejected missing_fields
  else if hwid_missing hwid then Rejected hwid_required
  else
    match lookup_user data username with
    | Throw e => Crashed e
    | Normal None => Answered invalid_credentials
    | Normal (Some (i, user)) =>
        if negb (strict_eq (prop user (lit "password")) password)
        then Answered invalid_credentials
        else if negb (testable (prop user (lit "hwid"))) then Crashed TypeError
        else if unbound (prop user (lit "hwid"))
        then Registering (with_user data i (assign user (lit "hwid") hwid))
        else if negb (strict_eq (prop user (lit "hwid")) hwid)
        then Answered hwid_mismatch
        else Answered login_ok
    end.

(** The run of the handler that a verdict stands for. *)
Definition outcome (ok : bool) (body : value) (w : World) : Completion Response * World :=
  match verdict body (loaded (users_json w)) with
  | Rejected r => (Normal r, w)
  | Crashed e => (Throw e, after_load w)
  | Answered r => (Normal r, after_load w)
  | Registering data =>
      if ok then (Normal hwid_registered, after_save data (after_load w))
      else (Normal server_error, after_failed_save (after_load w))
  end.

(** ** The decision list *)

(** The record for a username: the first one of the store whose [username] is that one. *)
Definition record_for (data : Json) (username : value) : option Json :=
  match records data with
  | Some items => List.find (fun u => strict_eq (prop u (lit "username")) username) items
  | None => None
  end.

(** The decision list of section 4.2 as the specification words it: the
    first rule that matches gives the code.  Absent or empty is read as
    falsy, for the fields of the request and for the hwid of the record;
    the hwid of the request is also rejected when it trims to empty, as
    section 4.2 says of step 2. *)
Definition claimed_code (body : value) (data : Json) : Code :=
  let username := field body (lit "username") in
  let password := field body (lit "password") in
  let hwid := field body (lit "hwid") in
  if negb (truthy username) || negb (truthy password) then MISSING_FIELDS
  else if hwid_missing hwid then HWID_REQUIRED
  else
    match record_for data username with
    | None => INVALID_CREDENTIALS
    | Some user =>
        if negb (strict_eq (prop user (lit "password")) password) then INVALID_CREDENTIALS
        else if negb (truthy (prop user (lit "hwid"))) then HWID_REGISTERED
        else if negb (strict_eq (prop user (lit "hwid")) hwid) then HWID_MISMATCH
        else OK
    end.

(** The decision list that the handler follows: step 4 also applies to a
    stored hwid that is blank, and answers SERVER_ERROR when the save fails. *)
Definition decided_code (ok : bool) (body : value) (data : Json) : Code :=
  let username := field body (lit "username") in
  let password := field body (lit "password") in
  let hwid := field body (lit "hwid") in
  if negb (truthy username) || negb (truthy password) then MISSING_FIELDS
  else if hwid_missing hwid then HWID_REQUIRED
  else
    match record_for data username with
    | None => INVALID_CREDENTIALS
    | Some user =>
        if negb (strict_eq (prop user (lit "password")) password) then INVALID_CREDENTIALS
        else if unbound (prop user (lit "hwid"))
        then (if ok then HWID_REGISTERED else SERVER_ERROR)
        else if negb (strict_eq (prop user (lit "hwid")) hwid) then HWID_MISMATCH
        else OK
    end.

(** A record on which the handler cannot throw: not [null], with an [hwid]
    that is absent, falsy or a string. *)
Definition record_ok (u : Json) : bool :=
  match u with
  | JNull => false
  | _ => testable (prop u (lit "hwid"))
  end.

(** A store in which the lookup and the tests of the handler cannot throw:
    [users] is an array of such records. *)
Definition store_ok (data : Json) : bool :=
  match records data with
  | Some items => forallb record_ok items
  | None => false
  end.

(** ** First logins served in turn *)

Definition is_object (u : Json) : bool :=
  match u with
  | JObj _ => true
  | _ => false
  end.

(** The hwid string that a request carries. *)
Definition sent_hwid (r : Request) : jsstring :=
  match field (body r) (lit "hwid") with
  | Some (JStr h) => h
  | _ => []
  end.

(** A request to log in as [name] with [password], with an hwid string that
    is not blank, served while writes go through. *)
Definition first_login (name password : jsstring) (r : Request) : Prop :=
  field (body r) (lit "username") = Some (JStr name)
  /\ field (body r) (lit "password") = Some (JStr password)
  /\ field (body r) (lit "hwid") = Some (JStr (sent_hwid r))
  /\ blank (sent_hwid r) = false
  /\ write_succeeds r = true.

(** ** Example data *)

Definition record (username password hwid : string) : Json :=
  JObj [(lit "username", JStr (lit username));
        (lit "password", JStr (lit password));
        (lit "hwid", JStr (lit hwid))].

Definition store (users : list Json) : Json := JObj [(lit "users", JArr users)].

(** A world whose file holds the text of [data], with nothing logged or called yet. *)
Definition disk (data : Json) : World :=
  {| users_json := Holds (Encodes data); console := []; fs_calls := [] |}.

(** The body [{ username, password, hwid }] of a request. *)
Definition request (username password hwid : string) : value := Some (record username password hwid).

(** ** Documents, accounts and what a load shows *)

(** A number that [JSON.stringify] writes so that it reads back as itself:
    finite and not zero. *)
Definition plain_number (x : float) : bool :=
  negb (is_nan x || is_infinity x || is_zero x).

(** A document all of whose numbers are such. *)
Fixpoint plain (j : Json) : bool :=
  match j with
  | JNum x => plain_number x
  | JArr items => forallb plain items
  | JObj props => forallb (fun p => plain (snd p)) props
  | _ => true
  end.

(** A record that is an object with an [hwid] that is absent, falsy or a string. *)
Definition account_ok (u : Json) : bool :=
  is_object u && testable (prop u (lit "hwid")).

(** A store whose [users] is an array of such records. *)
Definition accounts_ok (data : Json) : bool :=
  match records data with
  | Some items => forallb account_ok items
  | None => false
  end.



(** An array or an object. *)
Definition composite (v : value) : bool :=
  match v with
  | Some (JArr _) => true
  | Some (JObj _) => true
  | _ => false
  end.

(** The responses that the handler can send. *)
Definition responses : list Response :=
  [missing_fields; hwid_required; invalid_credentials; hwid_mismatch;
   login_ok; hwid_registered; server_error].

(** ** Induction on documents *)

Section JsonInduction.
Variable P : Json -> Prop.
Hypothesis P_null : P JNull.
Hypothesis P_bool : forall b, P (JBool b).
Hypothesis P_num : forall x, P (JNum x).
Hypothesis P_str : forall s, P (JStr s).
Hypothesis P_arr : forall items, Forall P items -> P (JArr items).
Hypothesis P_obj : forall props, Forall (fun p => P (snd p)) props -> P (JObj props).

Fixpoint Json_nested_ind (j : Json) : P j :=
  match j with
  | JNull => P_null
  | JBool b => P_bool b
  | JNum x => P_num x
  | JStr s => P_str s
  | JArr items =>
      P_arr items
        ((fix all (l : list Json) : Forall P l :=
            match l with
            | [] => Forall_nil_2 P
            | x :: l' => Forall_cons_2 P x l' (Json_nested_ind x) (all l')
            end) items)
  | JObj props =>
      P_obj props
        ((fix all (l : list (jsstring * Json)) : Forall (fun p => P (snd p)) l :=
            match l with
            | [] => Forall_nil_2 _
            | p :: l' => Forall_cons_2 _ p l' (Json_nested_ind (snd p)) (all l')
            end) props)
  end.
End JsonInduction.

(** ** Strings and conditions *)

Lemma str_eqb_refl (s : jsstring) : str_eqb s s = true.
Proof.
  induction s as [|c s IH]; simpl; [reflexivity|].
  rewrite N.eqb_refl. exact IH.
Qed.

Lemma str_eqb_eq (s t : jsstring) : str_eqb s t = true <-> s = t.
Proof.
  split; [|intros ->; apply str_eqb_refl].
  revert t. induction s as [|c s IH]; intros [|d t]; simpl; try discriminate; auto.
  intros H. apply andb_true_iff in H as [Hc Hs].
  apply N.eqb_eq in Hc. f_equal; auto.
Qed.

Lemma trimStart_blank (s : jsstring) : blank s = true -> trimStart s = [].
Proof.
  unfold blank. induction s as [|c s IH]; simpl; [reflexivity|].
  intros H. apply andb_true_iff in H as [Hc Hs]. rewrite Hc. auto.
Qed.

(** What [trimStart] leaves is empty or starts with a visible code unit. *)
Lemma trimStart_head (s : jsstring) :
  trimStart s = [] \/ exists c r, trimStart s = c :: r /\ is_white_space c = false.
Proof.
  induction s as [|c s IH]; simpl; [left; reflexivity|].
  destruct (is_white_space c) eqn:Hc; [exact IH|].
  right. eauto.
Qed.

Lemma trimStart_nil_blank (s : jsstring) : trimStart s = [] -> blank s = true.
Proof.
  unfold blank. induction s as [|c s IH]; simpl; [reflexivity|].
  destruct (is_white_space c) eqn:Hc; [auto|discriminate].
Qed.

Lemma blank_rev (s : jsstring) : blank (rev s) = blank s.
Proof.
  unfold blank. apply eq_true_iff_eq.
  rewrite !forallb_forall. split; intros H x Hx; apply H.
  - apply in_rev in Hx. exact Hx.
  - apply in_rev. exact Hx.
Qed.

(** [s.trim().length === 0] tells exactly that [s] is blank. *)
Lemma trim_length_blank (s : jsstring) : (length (trim s) =? 0)%nat = blank s.
Proof.
  unfold trim, trimEnd. rewrite length_rev.
  destruct (blank s) eqn:Hb.
  - rewrite (trimStart_blank s Hb). reflexivity.
  - destruct (trimStart_head s) as [Hn|(c & r & Hs & Hc)].
    + apply trimStart_nil_blank in Hn. congruence.
    + rewrite Hs.
      destruct (trimStart (rev (c :: r))) eqn:Ht; [|reflexivity].
      apply trimStart_nil_blank in Ht. rewrite blank_rev in Ht.
      unfold blank in Ht. simpl in Ht. rewrite Hc in Ht. discriminate.
Qed.

Lemma trims_to_empty_string (s : jsstring) :
  trims_to_empty (Some (JStr s)) = Normal (blank s).
Proof. unfold trims_to_empty. simpl. rewrite trim_length_blank. reflexivity. Qed.

(** The destructuring of [req.body || {}] never throws. *)
Lemma get_field (body : value) (k : jsstring) :
  get (if truthy body then body else Some (JObj [])) k = Normal (field body k).
Proof.
  unfold field.
  destruct body as [[| b | x | s | items | ps]|]; simpl; try reflexivity.
  - destruct b; reflexivity.
  - destruct (negb _); reflexivity.
  - destruct (negb _); reflexivity.
Qed.

(** The test of line 77. *)
Lemma hwid_test (hwid : value) :
  or_else (negb (truthy hwid) || negb (is_string hwid)) (trims_to_empty hwid)
  = Normal (hwid_missing hwid).
Proof.
  destruct hwid as [[| b | x | s | items | ps]|]; simpl;
    try reflexivity; try (rewrite orb_true_r; reflexivity).
  rewrite orb_false_r. destruct s as [|c s]; [reflexivity|].
  simpl negb. unfold or_else. apply trims_to_empty_string.
Qed.

Lemma unbound_test (stored : value) :
  or_else (negb (truthy stored)) (trims_to_empty stored)
  = if testable stored then Normal (unbound stored) else Throw TypeError.
Proof.
  destruct stored as [[| b | x | s | items | ps]|]; simpl; try reflexivity.
  - destruct b; reflexivity.
  - unfold testable. simpl. destruct (negb (is_zero x || is_nan x)); reflexivity.
  - destruct s as [|c s]; [reflexivity|]. simpl negb. unfold or_else.
    apply trims_to_empty_string.
Qed.

(** ** The file operations *)

Lemma loadUsers_run (w : World) :
  loadUsers w = (Normal (loaded (users_json w)), after_load w).
Proof.
  destruct w as [f out calls]. destruct f as [| | [|j]]; reflexivity.
Qed.

Lemma after_load_file (w : World) : users_json (after_load w) = users_json w.
Proof. destruct w as [f out calls]. destruct f as [| | [|j]]; reflexivity. Qed.

Lemma saveUsers_run (ok : bool) (data : Json) (w : World) :
  saveUsers ok data w
  = if ok then (Normal true, after_save data w) else (Normal false, after_failed_save w).
Proof. destruct ok; reflexivity. Qed.

(** ** The run of the handler *)

(** An element that [find] returns has passed the callback, at the position returned. *)
Lemma find_from_some (pred : Json -> Completion bool) (items : list Json) (i k : nat) (u : Json) :
  find_from pred items i = Normal (Some (k, u)) ->
  pred u = Normal true /\ i <= k /\ items !! (k - i) = Some u.
Proof.
  revert i. induction items as [|x items IH]; intros i; simpl; [discriminate|].
  destruct (pred x) as [[|]|e] eqn:Hx; [| |discriminate].
  - intros H. injection H as <- <-. rewrite Nat.sub_diag. auto.
  - intros H. apply IH in H as (Hp & Hle & Hk).
    split; [exact Hp|]. split; [lia|].
    replace (k - i) with (S (k - S i)) by lia. exact Hk.
Qed.

Lemma lookup_user_some (data : Json) (username : value) (i : nat) (user : Json) :
  lookup_user data username = Normal (Some (i, user)) ->
  exists items, records data = Some items /\ items !! i = Some user
    /\ username_is username user = Normal true.
Proof.
  unfold lookup_user, records.
  destruct data as [| b | x | s | items | ps]; simpl; try discriminate.
  destruct (assoc (lit "users") ps) as [[| b | x | s | items | ps']|]; simpl; try discriminate.
  intros H. apply find_from_some in H as (Hp & _ & Hk).
  rewrite Nat.sub_0_r in Hk. eauto.
Qed.

(** Reading a property of a record that passed the callback does not throw. *)
Lemma get_matching (username : value) (user : Json) (k : jsstring) :
  username_is username user = Normal true ->
  get (Some user) k = Normal (prop user k).
Proof.
  unfold username_is, prop. destruct user; simpl; try discriminate; reflexivity.
Qed.

Lemma bind_lift {A B} (c : Completion A) (k : A -> M B) (w : World) :
  bind (lift c) k w = match c with Normal a => k a w | Throw e => (Throw e, w) end.
Proof. unfold bind, lift. destruct c; reflexivity. Qed.

Lemma bind_run {A B} (m : M A) (k : A -> M B) (w w' : World) (r : Completion A) :
  m w = (r, w') ->
  bind m k w = match r with Normal a => k a w' | Throw e => (Throw e, w') end.
Proof. unfold bind. intros ->. destruct r; reflexivity. Qed.

(** The handler computes the run that its verdict stands for. *)
Lemma login_run (ok : bool) (body : value) (w : World) :
  login ok body w = outcome ok body w.
Proof.
  unfold login, outcome, verdict.
  rewrite !get_field, !bind_lift.
  destruct (negb (truthy (field body (lit "username")))
            || negb (truthy (field body (lit "password")))); [reflexivity|].
  rewrite hwid_test, bind_lift.
  destruct (hwid_missing (field body (lit "hwid"))); [reflexivity|].
  rewrite (bind_run _ _ _ _ _ (loadUsers_run w)).
  set (data := loaded (users_json w)). set (w1 := after_load w).
  unfold lookup_user. rewrite bind_lift.
  destruct (get (Some data) (lit "users")) as [users|e]; [|reflexivity].
  rewrite bind_lift.
  destruct (call_find users (username_is (field body (lit "username"))))
    as [[[i user]|]|e] eqn:Hfind; [|reflexivity|reflexivity].
  assert (Hu : username_is (field body (lit "username")) user = Normal true).
  { destruct users as [[| b | x | s | items | ps]|]; simpl in Hfind; try discriminate.
    apply find_from_some in Hfind. tauto. }
  rewrite !(get_matching _ _ _ Hu), bind_lift.
  destruct (negb (strict_eq (prop user (lit "password")) (field body (lit "password"))));
    [reflexivity|].
  rewrite bind_lift, unbound_test, bind_lift.
  destruct (testable (prop user (lit "hwid"))); [|reflexivity].
  cbn [negb].
  destruct (unbound (prop user (lit "hwid"))).
  - destruct ok.
    + rewrite (bind_run _ _ _ _ _ (saveUsers_run true _ w1)). reflexivity.
    + rewrite (bind_run _ _ _ _ _ (saveUsers_run false _ w1)). reflexivity.
  - destruct (negb (strict_eq (prop user (lit "hwid")) (field body (lit "hwid"))));
      reflexivity.
Qed.


(** ** The store after a registration *)

Lemma assoc_put (k : jsstring) (j : Json) (ps : list (jsstring * Json)) :
  assoc k (put k j ps) = Some j.
Proof.
  induction ps as [|[k' j'] ps IH]; simpl.
  - rewrite str_eqb_refl. reflexivity.
  - destruct (str_eqb k' k) eqn:Hk; simpl; rewrite Hk; [reflexivity|exact IH].
Qed.

Lemma assoc_written (k : jsstring) (ps : list (jsstring * Json)) :
  assoc k (List.map (fun p => (fst p, written (snd p))) ps) = option_map written (assoc k ps).
Proof.
  induction ps as [|[k' j'] ps IH]; simpl; [reflexivity|].
  destruct (str_eqb k' k); [reflexivity|exact IH].
Qed.


Lemma prop_written (u : Json) (k : jsstring) :
  prop (written u) k = option_map written (prop u k).
Proof.
  destruct u as [| b | x | t | items | ps]; try reflexivity.
  - unfold prop. simpl. destruct (is_nan x || is_infinity x); [reflexivity|].
    destruct (is_zero x); reflexivity.
  - unfold prop. simpl. apply assoc_written.
Qed.

Lemma records_written (data : Json) :
  records (written data) = option_map (List.map written) (records data).
Proof.
  destruct data as [| b | x | t | items | ps]; try reflexivity.
  - simpl. destruct (is_nan x || is_infinity x); [reflexivity|].
    destruct (is_zero x); reflexivity.
  - unfold records. cbn [written]. rewrite assoc_written.
    destruct (assoc (lit "users") ps) as [[| b | x | t | items | ps']|]; try reflexivity.
    simpl. destruct (is_nan x || is_infinity x); [reflexivity|].
    destruct (is_zero x); reflexivity.
Qed.

Lemma records_with_user (data : Json) (items : list Json) (i : nat) (u : Json) :
  records data = Some items ->
  records (with_user data i u) = Some (<[i:=u]> items).
Proof.
  unfold records, with_user.
  destruct data as [| b | x | t | items' | ps]; try discriminate.
  simpl. destruct (assoc (lit "users") ps) as [[| b | x | t | items' | ps']|] eqn:Ha;
    try discriminate.
  intros H. injection H as <-. simpl. rewrite assoc_put. reflexivity.
Qed.

(** A record with a truthy [username] equal to the requested one is an object. *)
Lemma matching_is_object (username : value) (user : Json) :
  truthy username = true ->
  username_is username user = Normal true ->
  exists ps, user = JObj ps.
Proof.
  unfold username_is. intros Ht.
  destruct user as [| b | x | t | items | ps]; simpl; try discriminate; eauto;
    destruct username as [[]|]; simpl; discriminate.
Qed.

Lemma prop_assign (ps : list (jsstring * Json)) (k : jsstring) (j : Json) :
  prop (assign (JObj ps) k (Some j)) k = Some j.
Proof. unfold prop. simpl. apply assoc_put. Qed.

Lemma stored_hwid_loaded (w : World) (i : nat) :
  stored_hwid w i = hwid_at (loaded (users_json w)) i.
Proof. unfold stored_hwid. rewrite loadUsers_run. reflexivity. Qed.

(** What a load shows at position [i] once [data] has been saved. *)
Lemma stored_hwid_after_save (data : Json) (w : World) (i : nat) :
  stored_hwid (after_save data w) i
  = match records data with
    | Some items =>
        match items !! i with
        | Some u => Some (option_map written (prop u (lit "hwid")))
        | None => None
        end
    | None => None
    end.
Proof.
  rewrite stored_hwid_loaded. unfold hwid_at, after_save, JSON_stringify. simpl.
  rewrite records_written. destruct (records data) as [items|]; [|reflexivity].
  simpl. rewrite list_lookup_fmap.
  destruct (items !! i) as [u|]; [|reflexivity].
  simpl. rewrite prop_written. reflexivity.
Qed.

Lemma stored_hwid_same_file (w1 w2 : World) (i : nat) :
  users_json w1 = users_json w2 -> stored_hwid w1 i = stored_hwid w2 i.
Proof. intros H. rewrite !stored_hwid_loaded, H. reflexivity. Qed.

(** The verdict on a request that reaches step 4. *)
Lemma verdict_registering (body : value) (data : Json) (i : nat) (user : Json) :
  well_formed body = true ->
  lookup_user data (field body (lit "username")) = Normal (Some (i, user)) ->
  strict_eq (prop user (lit "password")) (field body (lit "password")) = true ->
  testable (prop user (lit "hwid")) = true ->
  unbound (prop user (lit "hwid")) = true ->
  verdict body data
  = Registering (with_user data i (assign user (lit "hwid") (field body (lit "hwid")))).
Proof.
  unfold well_formed, verdict. intros Hwf Hl Hp Ht Hu.
  apply andb_true_iff in Hwf as [Hwf Hh]. apply andb_true_iff in Hwf as [Hn Hpw].
  apply negb_true_iff in Hh.
  rewrite Hn, Hpw, Hh, Hl, Hp, Ht, Hu. reflexivity.
Qed.

(** After a registration that is saved, a load shows the supplied [hwid]
    at the position of the record. *)
Lemma registered_hwid (username : value) (w : World) (i : nat) (user : Json) (h : jsstring) :
  truthy username = true ->
  lookup_user (loaded (users_json w)) username = Normal (Some (i, user)) ->
  stored_hwid
    (after_save (with_user (loaded (users_json w)) i (assign user (lit "hwid") (Some (JStr h))))
       (after_load w)) i
  = Some (Some (JStr h)).
Proof.
  intros Hn Hl. rewrite stored_hwid_after_save.
  apply lookup_user_some in Hl as (items & Hr & Hi & Hm).
  rewrite (records_with_user _ _ _ _ Hr).
  rewrite list_lookup_insert_eq by (eapply lookup_lt_Some; exact Hi).
  destruct (matching_is_object _ _ Hn Hm) as [ps ->].
  rewrite prop_assign. reflexivity.
Qed.

Lemma loadUsers_loaded (w : World) (data : Json) :
  fst (loadUsers w) = Normal data -> data = loaded (users_json w).
Proof. rewrite loadUsers_run. simpl. congruence. Qed.

(** The run of a request that reaches step 4. *)
Lemma login_registering (ok : bool) (body : value) (w : World) (i : nat) (user : Json) :
  well_formed body = true ->
  lookup_user (loaded (users_json w)) (field body (lit "username")) = Normal (Some (i, user)) ->
  strict_eq (prop user (lit "password")) (field body (lit "password")) = true ->
  testable (prop user (lit "hwid")) = true ->
  unbound (prop user (lit "hwid")) = true ->
  login ok body w
  = if ok
    then (Normal hwid_registered,
          after_save (with_user (loaded (users_json w)) i
                        (assign user (lit "hwid") (field body (lit "hwid"))))
            (after_load w))
    else (Normal server_error, after_failed_save (after_load w)).
Proof.
  intros Hwf Hl Hp Ht Hu. rewrite login_run. unfold outcome.
  rewrite (verdict_registering _ _ _ _ Hwf Hl Hp Ht Hu). reflexivity.
Qed.

Lemma well_formed_intro (body : value) (h : jsstring) :
  truthy (field body (lit "username")) = true ->
  truthy (field body (lit "password")) = true ->
  field body (lit "hwid") = Some (JStr h) ->
  blank h = false ->
  well_formed body = true.
Proof.
  intros Hn Hp Hh Hb. unfold well_formed. rewrite Hn, Hp, Hh. simpl. rewrite Hb. reflexivity.
Qed.

(** ** Verdicts *)

Lemma well_formed_elim (body : value) :
  well_formed body = true ->
  negb (truthy (field body (lit "username"))) || negb (truthy (field body (lit "password"))) = false
  /\ hwid_missing (field body (lit "hwid")) = false.
Proof.
  unfold well_formed. intros H.
  apply andb_true_iff in H as [H Hh]. apply andb_true_iff in H as [-> ->].
  apply negb_true_iff in Hh. auto.
Qed.

(** A request that fails step 1 is rejected whatever the store holds. *)
Lemma verdict_missing_fields (body : value) (data : Json) :
  truthy (field body (lit "username")) && truthy (field body (lit "password")) = false ->
  verdict body data = Rejected missing_fields.
Proof.
  intros H. unfold verdict.
  destruct (truthy (field body (lit "username"))); [|reflexivity].
  simpl in H. rewrite H. reflexivity.
Qed.

Lemma lookup_user_no_records (data : Json) (username : value) :
  records data = None -> lookup_user data username = Throw TypeError.
Proof.
  unfold records, lookup_user.
  destruct data as [| b | x | t | items | ps]; try reflexivity.
  simpl. destruct (assoc (lit "users") ps) as [[| b | x | t | items | ps']|];
    try reflexivity; discriminate.
Qed.

Lemma after_load_calls (w : World) :
  exists calls, fs_calls (after_load w) = fs_calls w ++ calls /\ ~ In WriteFileSync calls.
Proof.
  destruct w as [f out calls]. destruct f as [| | [|j]]; simpl.
  - exists [ExistsSync]. split; [reflexivity|]. simpl. intuition discriminate.
  - exists [ExistsSync; ReadFileSync]. split; [rewrite <- app_assoc; reflexivity|].
    simpl. intuition discriminate.
  - exists [ExistsSync; ReadFileSync]. split; [rewrite <- app_assoc; reflexivity|].
    simpl. intuition discriminate.
  - exists [ExistsSync; ReadFileSync]. split; [rewrite <- app_assoc; reflexivity|].
    simpl. intuition discriminate.
Qed.

(** Every verdict, by the tests of the handler in their order. *)
Lemma verdict_cases (body : value) (data : Json) :
  verdict body data = Rejected missing_fields
  \/ verdict body data = Rejected hwid_required
  \/ verdict body data = Answered invalid_credentials
  \/ verdict body data = Answered hwid_mismatch
  \/ verdict body data = Answered login_ok
  \/ (exists e, verdict body data = Crashed e)
  \/ (exists data', verdict body data = Registering data').
Proof.
  unfold verdict.
  destruct (negb (truthy (field body (lit "username")))
            || negb (truthy (field body (lit "password")))); [tauto|].
  destruct (hwid_missing (field body (lit "hwid"))); [tauto|].
  destruct (lookup_user data (field body (lit "username"))) as [[[i user]|]|e];
    [|tauto|eauto 10].
  destruct (negb (strict_eq (prop user (lit "password")) (field body (lit "password"))));
    [tauto|].
  destruct (negb (testable (prop user (lit "hwid")))); [eauto 10|].
  destruct (unbound (prop user (lit "hwid"))); [eauto 10|].
  destruct (negb (strict_eq (prop user (lit "hwid")) (field body (lit "hwid")))); tauto.
Qed.

(** With no parsed document the store is empty and no record is found. *)
Lemma login_without_document (ok : bool) (body : value) (w : World) :
  readable (users_json w) = false ->
  users_json (snd (login ok body w)) = users_json w
  /\ (well_formed body = true -> fst (login ok body w) = Normal invalid_credentials).
Proof.
  intros Hr. rewrite login_run. unfold outcome.
  assert (Hl : loaded (users_json w) = empty_store).
  { destruct (users_json w) as [| | [|j]]; try reflexivity. discriminate. }
  rewrite Hl. unfold verdict.
  destruct (negb (truthy (field body (lit "username")))
            || negb (truthy (field body (lit "password")))) eqn:H1.
  { split; [reflexivity|]. intros [H _]%well_formed_elim. congruence. }
  destruct (hwid_missing (field body (lit "hwid"))) eqn:H2.
  { split; [reflexivity|]. intros [_ H]%well_formed_elim. congruence. }
  simpl. split; [apply after_load_file|reflexivity].
Qed.

(** A request answered OK is answered OK again on any world with the same
    file, and leaves that file as it is. *)
Lemma login_ok_again (ok : bool) (body : value) (w : World) (r : Response) :
  fst (login ok body w) = Normal r ->
  code r = OK ->
  forall (ok' : bool) (w' : World),
    users_json w' = users_json w ->
    fst (login ok' body w') = Normal login_ok
    /\ users_json (snd (login ok' body w')) = users_json w.
Proof.
  rewrite login_run. unfold outcome. intros Hr Hc ok' w' Hf.
  rewrite login_run. unfold outcome. rewrite Hf.
  destruct (verdict_cases body (loaded (users_json w)))
    as [H|[H|[H|[H|[H|[[e H]|[d H]]]]]]]; rewrite H in *; simpl in *;
    try (injection Hr as <-; discriminate Hc); try discriminate Hr.
  - rewrite after_load_file. auto.
  - destruct ok; simpl in Hr; injection Hr as <-; discriminate Hc.
Qed.

(** ** Lookup in a store of proper records *)

Lemma find_from_ok (username : value) (items : list Json) (i : nat) :
  forallb record_ok items = true ->
  exists found,
    find_from (username_is username) items i = Normal found
    /\ option_map snd found
       = List.find (fun u => strict_eq (prop u (lit "username")) username) items
    /\ forall k user, found = Some (k, user) -> record_ok user = true.
Proof.
  revert i. induction items as [|u items IH]; intros i Hok; simpl.
  - exists None. repeat split; intros; discriminate.
  - simpl in Hok. apply andb_true_iff in Hok as [Hu Hitems].
    assert (Hpred : username_is username u
                    = Normal (strict_eq (prop u (lit "username")) username)).
    { unfold username_is, prop. destruct u; try reflexivity. discriminate Hu. }
    rewrite Hpred.
    destruct (strict_eq (prop u (lit "username")) username).
    + exists (Some (i, u)). repeat split. intros k user H. injection H as <- <-. exact Hu.
    + apply IH. exact Hitems.
Qed.

Lemma lookup_user_ok (data : Json) (username : value) :
  store_ok data = true ->
  exists found,
    lookup_user data username = Normal found
    /\ option_map snd found = record_for data username
    /\ forall k user, found = Some (k, user) -> testable (prop user (lit "hwid")) = true.
Proof.
  unfold store_ok, record_for, lookup_user, records.
  destruct data as [| b | x | t | items | ps]; try discriminate.
  simpl. destruct (assoc (lit "users") ps) as [[| b | x | t | items | ps']|];
    try discriminate.
  intros Hok. destruct (find_from_ok username items 0 Hok) as (found & Hf & Hs & Hr).
  exists found. split; [exact Hf|]. split; [exact Hs|].
  intros k user Hk. specialize (Hr k user Hk).
  unfold record_ok in Hr. destruct user; try exact Hr. discriminate Hr.
Qed.

(** ** The hwid of a record along a run *)

(** What made a verdict of registration. *)
Lemma verdict_registering_inv (body : value) (data data' : Json) :
  verdict body data = Registering data' ->
  exists i user h,
    truthy (field body (lit "username")) = true
    /\ field body (lit "hwid") = Some (JStr h)
    /\ blank h = false
    /\ lookup_user data (field body (lit "username")) = Normal (Some (i, user))
    /\ unbound (prop user (lit "hwid")) = true
    /\ data' = with_user data i (assign user (lit "hwid") (Some (JStr h))).
Proof.
  unfold verdict.
  destruct (truthy (field body (lit "username"))) eqn:Hn; [|discriminate].
  destruct (negb true || negb (truthy (field body (lit "password")))); [discriminate|].
  destruct (hwid_missing (field body (lit "hwid"))) eqn:Hh; [discriminate|].
  destruct (lookup_user data (field body (lit "username"))) as [[[i user]|]|e];
    try discriminate.
  destruct (negb (strict_eq (prop user (lit "password")) (field body (lit "password"))));
    [discriminate|].
  destruct (negb (testable (prop user (lit "hwid")))); [discriminate|].
  destruct (unbound (prop user (lit "hwid"))) eqn:Hu.
  - intros H. injection H as <-.
    destruct (field body (lit "hwid")) as [[| b | x | h | items | ps]|]; try discriminate Hh.
    exists i, user, h. simpl in Hh. auto 10.
  - destruct (negb (strict_eq (prop user (lit "hwid")) (field body (lit "hwid"))));
      discriminate.
Qed.



(** ** First logins served in turn *)

Lemma assoc_put_other (k k' : jsstring) (j : Json) (ps : list (jsstring * Json)) :
  k <> k' -> assoc k' (put k j ps) = assoc k' ps.
Proof.
  intros Hk. induction ps as [|[key j'] ps IH]; simpl.
  - destruct (str_eqb k k') eqn:E; [apply str_eqb_eq in E; contradiction|reflexivity].
  - destruct (str_eqb key k) eqn:E1; simpl.
    + apply str_eqb_eq in E1. subst key.
      destruct (str_eqb k k') eqn:E; [apply str_eqb_eq in E; contradiction|reflexivity].
    + rewrite IH. reflexivity.
Qed.

(** Writing and reading back does not change whether a value is a given string. *)
Lemma strict_eq_written (v : value) (s : jsstring) :
  strict_eq (option_map written v) (Some (JStr s)) = strict_eq v (Some (JStr s)).
Proof.
  destruct v as [[| b | x | t | items | ps]|]; try reflexivity.
  simpl. destruct (is_nan x || is_infinity x); [reflexivity|].
  destruct (is_zero x); reflexivity.
Qed.

Lemma username_is_written (s : jsstring) (u : Json) :
  is_object u = true ->
  username_is (Some (JStr s)) (written u) = username_is (Some (JStr s)) u.
Proof.
  destruct u as [| b | x | t | items | ps]; try discriminate. intros _.
  unfold username_is. cbn [written get]. rewrite assoc_written, strict_eq_written.
  reflexivity.
Qed.

Lemma find_from_written (s : jsstring) (items : list Json) (k : nat) :
  forallb is_object items = true ->
  find_from (username_is (Some (JStr s))) (List.map written items) k
  = match find_from (username_is (Some (JStr s))) items k with
    | Normal (Some (i, u)) => Normal (Some (i, written u))
    | other => other
    end.
Proof.
  revert k. induction items as [|u items IH]; intros k Hobj; simpl; [reflexivity|].
  simpl in Hobj. apply andb_true_iff in Hobj as [Hu Hitems].
  rewrite (username_is_written s u Hu).
  destruct (username_is (Some (JStr s)) u) as [[|]|e]; try reflexivity.
  apply IH. exact Hitems.
Qed.

(** Replacing the record found by one that also passes the callback: it is found in its place. *)
Lemma find_from_insert (pred : Json -> Completion bool) (items : list Json)
    (k i : nat) (u u' : Json) :
  find_from pred items k = Normal (Some (i, u)) ->
  pred u' = Normal true ->
  find_from pred (<[i - k := u']> items) k = Normal (Some (i, u')).
Proof.
  intros Hf Hu'. revert k Hf. induction items as [|x items IH]; intros k Hf; simpl in *.
  - discriminate.
  - destruct (pred x) as [[|]|e] eqn:Hx; [| |discriminate].
    + injection Hf as <- <-. rewrite Nat.sub_diag. simpl. rewrite Hu'. reflexivity.
    + pose proof (find_from_some _ _ _ _ _ Hf) as (_ & Hle & _).
      replace (i - k) with (S (i - S k)) by lia. simpl. rewrite Hx.
      apply IH. exact Hf.
Qed.

Lemma forallb_insert (items : list Json) (i : nat) (u : Json) :
  forallb is_object items = true ->
  is_object u = true ->
  forallb is_object (<[i:=u]> items) = true.
Proof.
  revert i. induction items as [|x items IH]; intros i Hall Hu; simpl; [reflexivity|].
  simpl in Hall. apply andb_true_iff in Hall as [Hx Hitems].
  destruct i as [|i]; simpl; apply andb_true_iff; auto.
Qed.

(** The store written by a registration, read back: the lookup finds the
    record at the same position, with the same password and the new hwid. *)
Lemma lookup_after_registration
    (data : Json) (items : list Json) (name pw h : jsstring) (i : nat) (user : Json) :
  records data = Some items ->
  forallb is_object items = true ->
  lookup_user data (Some (JStr name)) = Normal (Some (i, user)) ->
  prop user (lit "password") = Some (JStr pw) ->
  exists user',
    lookup_user (written (with_user data i (assign user (lit "hwid") (Some (JStr h)))))
                (Some (JStr name))
    = Normal (Some (i, user'))
    /\ prop user' (lit "password") = Some (JStr pw)
    /\ prop user' (lit "hwid") = Some (JStr h).
Proof.
  intros Hr Hobj Hl Hpw.
  assert (Hfind : find_from (username_is (Some (JStr name))) items 0 = Normal (Some (i, user))).
  { revert Hl Hr. unfold lookup_user, records.
    destruct data as [| b | x | t | its | ps]; try discriminate.
    simpl. destruct (assoc (lit "users") ps) as [[| b | x | t | its | ps']|]; try discriminate.
    intros Hl Hr. injection Hr as <-. exact Hl. }
  pose proof (find_from_some _ _ _ _ _ Hfind) as (Hm & _ & Hi).
  rewrite Nat.sub_0_r in Hi.
  assert (Hu : is_object user = true).
  { rewrite forallb_forall in Hobj. apply Hobj.
    apply list_elem_of_In. eapply list_elem_of_lookup_2. exact Hi. }
  destruct user as [| b | x | t | its | ps]; try discriminate Hu.
  set (user1 := assign (JObj ps) (lit "hwid") (Some (JStr h))).
  assert (Hm1 : username_is (Some (JStr name)) user1 = Normal true).
  { revert Hm. unfold username_is, user1. simpl get.
    rewrite assoc_put_other by discriminate. auto. }
  pose proof (records_written (with_user data i user1)) as Hrw.
  rewrite (records_with_user data items i user1 Hr) in Hrw. cbn [option_map] in Hrw.
  exists (written user1). split; [|split].
  - remember (written (with_user data i user1)) as d eqn:Hd. clear Hd.
    unfold lookup_user. unfold records in Hrw.
    destruct d as [| b | x | t | its | ps1]; try discriminate.
    simpl. destruct (assoc (lit "users") ps1) as [[| b | x | t | its | ps']|]; try discriminate.
    injection Hrw as ->. simpl.
    rewrite find_from_written by (apply forallb_insert; [exact Hobj|reflexivity]).
    replace i with (i - 0) at 1 by lia.
    rewrite (find_from_insert _ _ _ _ _ _ Hfind Hm1). reflexivity.
  - rewrite prop_written. unfold user1, prop. simpl get.
    rewrite assoc_put_other by discriminate.
    unfold prop in Hpw. simpl in Hpw. rewrite Hpw. reflexivity.
  - rewrite prop_written. unfold user1. rewrite prop_assign. reflexivity.
Qed.

(** On a store where the account is bound to [h], a first login is
    answered OK when it carries [h] and HWID_MISMATCH otherwise, and the
    file stays as it is. *)
Lemma login_when_bound
    (w : World) (name pw h : jsstring) (i : nat) (user : Json) (r : Request) :
  name <> [] -> pw <> [] ->
  lookup_user (loaded (users_json w)) (Some (JStr name)) = Normal (Some (i, user)) ->
  prop user (lit "password") = Some (JStr pw) ->
  prop user (lit "hwid") = Some (JStr h) ->
  blank h = false ->
  first_login name pw r ->
  fst (login (write_succeeds r) (body r) w)
  = Normal (if str_eqb h (sent_hwid r) then login_ok else hwid_mismatch)
  /\ users_json (snd (login (write_succeeds r) (body r) w)) = users_json w.
Proof.
  intros Hn Hp Hl Hpw Hh Hb (Fn & Fp & Fh & Fb & _).
  rewrite login_run. unfold outcome, verdict. rewrite Fn, Fp, Fh.
  destruct name as [|c name]; [contradiction|]. destruct pw as [|d pw]; [contradiction|].
  cbn [truthy length Nat.eqb negb orb hwid_missing]. rewrite Fb, Hl, Hpw, Hh.
  cbn [strict_eq]. rewrite str_eqb_refl. cbn [negb testable is_string orb unbound].
  rewrite Hb. destruct (str_eqb h (sent_hwid r)); simpl; split;
    try reflexivity; apply after_load_file.
Qed.

(** First logins for one account that is not bound, served in turn in any
    order while writes go through: the first one served registers its
    hwid, every later one is answered HWID_MISMATCH, or OK if it carries the
    same hwid, and the store ends with the hwid of the first at the record. *)
Lemma first_logins_bind_first
    (w : World) (data : Json) (items : list Json) (name pw : jsstring)
    (i : nat) (user : Json) (r : Request) (rest : list Request) :
  name <> [] -> pw <> [] ->
  fst (loadUsers w) = Normal data ->
  records data = Some items ->
  forallb is_object items = true ->
  lookup_user data (Some (JStr name)) = Normal (Some (i, user)) ->
  prop user (lit "password") = Some (JStr pw) ->
  testable (prop user (lit "hwid")) = true ->
  unbound (prop user (lit "hwid")) = true ->
  Forall (first_login name pw) (r :: rest) ->
  fst (serve (r :: rest) w)
  = Normal hwid_registered
    :: List.map (fun q => Normal (if str_eqb (sent_hwid r) (sent_hwid q)
                                  then login_ok else hwid_mismatch)) rest
  /\ stored_hwid (snd (serve (r :: rest) w)) i = Some (Some (JStr (sent_hwid r))).
Proof.
  intros Hn Hp Hd Hr Hobj Hl Hpw Ht Hu Hall.
  apply loadUsers_loaded in Hd. subst data.
  inversion Hall as [|? ? Hfirst Hrest]; subst.
  destruct Hfirst as (Fn & Fp & Fh & Fb & Fw).
  assert (Hwf : well_formed (body r) = true).
  { apply (well_formed_intro _ (sent_hwid r)); rewrite ?Fn, ?Fp; try assumption.
    - destruct name; [contradiction|reflexivity].
    - destruct pw; [contradiction|reflexivity]. }
  cbn [serve]. rewrite Fw.
  rewrite (login_registering true (body r) w i user Hwf); rewrite ?Fn, ?Fp, ?Hpw;
    try assumption; [|simpl; apply str_eqb_refl].
  rewrite Fh.
  destruct (lookup_after_registration _ items name pw (sent_hwid r) i user Hr Hobj Hl Hpw)
    as (user' & Hl' & Hpw' & Hh').
  set (w1 := after_save _ (after_load w)) in *.
  assert (Hinv : lookup_user (loaded (users_json w1)) (Some (JStr name))
                 = Normal (Some (i, user'))) by exact Hl'.
  clearbody w1. clear Hall Hl Hr Hobj Hpw Ht Hu Hwf Hl'.
  revert w1 Hinv. induction rest as [|q rest IH]; intros w1 Hinv.
  - simpl. split; [reflexivity|].
    rewrite stored_hwid_loaded. unfold hwid_at.
    apply lookup_user_some in Hinv as (its & -> & -> & _). rewrite Hh'. reflexivity.
  - inversion Hrest as [|? ? Hq Hrest']; subst.
    destruct (login_when_bound w1 name pw (sent_hwid r) i user' q Hn Hp Hinv Hpw' Hh' Fb Hq)
      as [Hout Hfile].
    specialize (IH Hrest' (snd (login (write_succeeds q) (body q) w1))).
    cbn [serve] in *.
    destruct (login (write_succeeds q) (body q) w1) as [out w2]. simpl in Hout, Hfile, IH.
    destruct IH as [IHouts IHend]; [rewrite Hfile; exact Hinv|].
    destruct (serve rest w2) as [outs w3]. simpl in *.
    injection IHouts as ->. subst out. split; [reflexivity|exact IHend].
Qed.

(** ** The example of section 8 *)

(** The store holds alice with an empty hwid; [{alice, p1, "DEV-1"}] is
    registered, then [{alice, p1, "DEV-2"}] is a mismatch and
    [{alice, "wrong", "DEV-1"}] has invalid credentials. *)
Example section_8_example :
  fst (serve [ {| write_succeeds := true; body := request "alice" "p1" "DEV-1" |};
               {| write_succeeds := true; body := request "alice" "p1" "DEV-2" |};
               {| write_succeeds := true; body := request "alice" "wrong" "DEV-1" |} ]
         (disk (store [record "alice" "p1" ""])))
  = [Normal hwid_registered; Normal hwid_mismatch; Normal invalid_credentials].
Proof. reflexivity. Qed.

(** ** First login and registration *)



(** C9: a stored hwid that is a non-empty string of white space only counts
    as not bound: with matching credentials and an hwid that passes step 2,
    the login overwrites it with the supplied hwid, saves the store and
    answers HWID_REGISTERED. *)
Theorem blank_stored_hwid_is_overwritten
    (body : value) (w : World) (data : Json) (i : nat) (user : Json) (s h : jsstring) :
  truthy (field body (lit "username")) = true ->
  truthy (field body (lit "password")) = true ->
  field body (lit "hwid") = Some (JStr h) ->
  blank h = false ->
  fst (loadUsers w) = Normal data ->
  lookup_user data (field body (lit "username")) = Normal (Some (i, user)) ->
  strict_eq (prop user (lit "password")) (field body (lit "password")) = true ->
  prop user (lit "hwid") = Some (JStr s) ->
  s <> [] ->
  blank s = true ->
  fst (login true body w) = Normal hwid_registered
  /\ users_json (snd (login true body w))
     = Holds (JSON_stringify (with_user data i (assign user (lit "hwid") (Some (JStr h)))))
  /\ stored_hwid (snd (login true body w)) i = Some (Some (JStr h)).
Proof.
  intros Hn Hp Hh Hb Hd Hl Hpw Hs _ Hbs.
  apply loadUsers_loaded in Hd. subst data.
  rewrite (login_registering true body w i user);
    [ | eapply well_formed_intro; eauto | exact Hl | exact Hpw
      | rewrite Hs; reflexivity | rewrite Hs; exact Hbs ].
  simpl. rewrite Hh. split; [reflexivity|]. split; [reflexivity|].
  apply (registered_hwid (field body (lit "username"))); assumption.
Qed.

Lemma blank_stored_hwid_is_overwritten_witness :
  fst (login true (request "alice" "p1" "DEV-1") (disk (store [record "alice" "p1" " "])))
  = Normal hwid_registered
  /\ users_json (snd (login true (request "alice" "p1" "DEV-1")
                        (disk (store [record "alice" "p1" " "]))))
     = Holds (JSON_stringify (store [record "alice" "p1" "DEV-1"]))
  /\ stored_hwid
       (snd (login true (request "alice" "p1" "DEV-1") (disk (store [record "alice" "p1" " "])))) 0
     = Some (Some (JStr (lit "DEV-1"))).
Proof.
  apply (blank_stored_hwid_is_overwritten
           (request "alice" "p1" "DEV-1") (disk (store [record "alice" "p1" " "]))
           (store [record "alice" "p1" " "]) 0 (record "alice" "p1" " ")
           (lit " ") (lit "DEV-1"));
    try reflexivity.
  discriminate.
Defined.



(** ** Requests that leave the store alone *)

(** C5: a request answered MISSING_FIELDS, HWID_REQUIRED, INVALID_CREDENTIALS,
    HWID_MISMATCH or OK leaves the file as it was, makes no write call, and
    a load shows the same hwid at every record as before; and a request
    that fails step 1 (username or password falsy) is answered
    MISSING_FIELDS with the world unchanged: no call to the file system is
    made at all, so the store is not even read. *)
Theorem rejected_login_leaves_store (ok : bool) (body : value) (w : World) :
  (forall r : Response,
     fst (login ok body w) = Normal r ->
     In (code r) [MISSING_FIELDS; HWID_REQUIRED; INVALID_CREDENTIALS; HWID_MISMATCH; OK] ->
     users_json (snd (login ok body w)) = users_json w
     /\ (exists calls,
           fs_calls (snd (login ok body w)) = fs_calls w ++ calls
           /\ ~ In WriteFileSync calls)
     /\ forall i, stored_hwid (snd (login ok body w)) i = stored_hwid w i)
  /\ (truthy (field body (lit "username")) && truthy (field body (lit "password")) = false ->
      login ok body w = (Normal missing_fields, w)).
Proof.
  rewrite login_run. unfold outcome. split.
  - intros r Hr Hc.
    assert (Hfile : users_json (after_load w) = users_json w) by apply after_load_file.
    destruct (verdict body (loaded (users_json w))) as [r' | e | r' | data'] eqn:Hv.
    + simpl. split; [reflexivity|]. split; [|reflexivity].
      exists []. rewrite app_nil_r. auto.
    + discriminate Hr.
    + simpl. split; [exact Hfile|]. split; [apply after_load_calls|].
      intros i. apply stored_hwid_same_file. exact Hfile.
    + exfalso. destruct ok; simpl in Hr; injection Hr as <-; simpl in Hc;
        intuition discriminate.
  - intros H1. rewrite (verdict_missing_fields _ _ H1). reflexivity.
Qed.

Lemma rejected_login_leaves_store_witness :
  users_json (snd (login true (request "alice" "p1" "DEV-2")
                     (disk (store [record "alice" "p1" "DEV-1"]))))
  = Holds (Encodes (store [record "alice" "p1" "DEV-1"]))
  /\ login true (request "alice" "" "DEV-2") (disk (store [record "alice" "p1" "DEV-1"]))
     = (Normal missing_fields, disk (store [record "alice" "p1" "DEV-1"])).
Proof.
  split.
  - refine (proj1 (proj1 (rejected_login_leaves_store true (request "alice" "p1" "DEV-2")
                     (disk (store [record "alice" "p1" "DEV-1"]))) hwid_mismatch eq_refl _)).
    simpl. tauto.
  - exact (proj2 (rejected_login_leaves_store true (request "alice" "" "DEV-2")
                    (disk (store [record "alice" "p1" "DEV-1"]))) eq_refl).
Defined.

(** C7: a request answered OK, sent again any number of times to the world
    it left, is answered OK every time, whether or not a write would go
    through, and the file stays as it was before the first of them. *)
Theorem ok_login_is_idempotent
    (ok : bool) (body : value) (w : World) (r : Response) (oks : list bool) :
  fst (login ok body w) = Normal r ->
  code r = OK ->
  Forall (fun out => out = Normal login_ok)
         (fst (serve (repeated body oks) (snd (login ok body w))))
  /\ users_json (snd (serve (repeated body oks) (snd (login ok body w)))) = users_json w.
Proof.
  intros Hr Hc.
  pose proof (login_ok_again ok body w r Hr Hc) as Hagain.
  assert (H0 : users_json (snd (login ok body w)) = users_json w).
  { apply (Hagain ok w). reflexivity. }
  generalize dependent (snd (login ok body w)). clear Hr.
  induction oks as [|ok' oks IH]; intros w1 Hw1; simpl.
  - split; [constructor|exact Hw1].
  - destruct (Hagain ok' w1 Hw1) as [Hout Hfile].
    destruct (login ok' body w1) as [out w2] eqn:Hstep. simpl in Hout, Hfile.
    destruct (IH w2 Hfile) as [Hall Hend].
    destruct (serve (repeated body oks) w2) as [outs w3]. simpl in *.
    split; [constructor; assumption|exact Hend].
Qed.

Lemma ok_login_is_idempotent_witness :
  Forall (fun out => out = Normal login_ok)
         (fst (serve (repeated (request "alice" "p1" "DEV-1") [true; false; true])
                 (snd (login true (request "alice" "p1" "DEV-1")
                         (disk (store [record "alice" "p1" "DEV-1"]))))))
  /\ users_json (snd (serve (repeated (request "alice" "p1" "DEV-1") [true; false; true])
                        (snd (login true (request "alice" "p1" "DEV-1")
                                (disk (store [record "alice" "p1" "DEV-1"]))))))
     = Holds (Encodes (store [record "alice" "p1" "DEV-1"])).
Proof.
  exact (ok_login_is_idempotent true (request "alice" "p1" "DEV-1")
           (disk (store [record "alice" "p1" "DEV-1"])) login_ok [true; false; true]
           eq_refl eq_refl).
Defined.

(** ** Loading *)

(** C6: when the file is absent, [loadUsers] returns the empty store and
    logs nothing; when it is there but cannot be read or parsed,
    [loadUsers] still returns the empty store, without throwing, and logs
    one line on the console.  In both cases every request of any sequence
    that passes steps 1 and 2 is answered INVALID_CREDENTIALS, and the file
    stays as it was. *)
Theorem load_fails_open (w : World) (reqs : list Request) :
  readable (users_json w) = false ->
  fst (loadUsers w) = Normal empty_store
  /\ console (snd (loadUsers w))
     = match users_json w with
       | Absent => console w
       | _ => console w ++ ["Failed to read users.json:"]
       end
  /\ Forall2 (fun r out => well_formed (body r) = true -> out = Normal invalid_credentials)
             reqs (fst (serve reqs w))
  /\ users_json (snd (serve reqs w)) = users_json w.
Proof.
  intros Hr. split; [|split].
  - rewrite loadUsers_run. simpl.
    destruct (users_json w) as [| | [|j]]; try reflexivity. discriminate.
  - rewrite loadUsers_run. destruct w as [f out calls].
    destruct f as [| | [|j]]; try reflexivity. discriminate.
  - revert w Hr. induction reqs as [|r reqs IH]; intros w Hr; simpl.
    + split; [constructor|reflexivity].
    + destruct (login_without_document (write_succeeds r) (body r) w Hr) as [Hfile Hout].
      destruct (login (write_succeeds r) (body r) w) as [out w1]. simpl in Hfile, Hout.
      assert (Hr1 : readable (users_json w1) = false) by (rewrite Hfile; exact Hr).
      destruct (IH w1 Hr1) as [Hall Hend].
      destruct (serve reqs w1) as [outs w2]. simpl in *.
      split; [constructor; assumption|congruence].
Qed.

Lemma load_fails_open_witness :
  fst (loadUsers {| users_json := Holds Malformed; console := []; fs_calls := [] |})
  = Normal empty_store
  /\ console (snd (loadUsers {| users_json := Holds Malformed; console := []; fs_calls := [] |}))
     = ["Failed to read users.json:"].
Proof.
  destruct (load_fails_open {| users_json := Holds Malformed; console := []; fs_calls := [] |}
              [{| write_succeeds := true; body := request "alice" "p1" "DEV-1" |}] eq_refl)
    as (H1 & H2 & _).
  split; [exact H1 | exact H2].
Defined.

(** C10: a file that parses to a document without a [users] array (an array,
    a string, [null], an object without [users], ...) is returned by
    [loadUsers] as it is, and every request that passes steps 1 and 2 then
    ends with a TypeError thrown out of the handler, not with a response. *)
Theorem store_without_users_throws (ok : bool) (body : value) (w : World) (j : Json) :
  users_json w = Holds (Encodes j) ->
  records j = None ->
  well_formed body = true ->
  fst (loadUsers w) = Normal j
  /\ fst (login ok body w) = Throw TypeError.
Proof.
  intros Hf Hr Hwf. rewrite loadUsers_run, login_run. unfold outcome. rewrite Hf. simpl.
  split; [reflexivity|].
  unfold verdict. destruct (well_formed_elim _ Hwf) as [-> ->].
  rewrite (lookup_user_no_records _ _ Hr). reflexivity.
Qed.

Lemma store_without_users_throws_witness :
  fst (loadUsers (disk (JArr [record "alice" "p1" ""]))) = Normal (JArr [record "alice" "p1" ""])
  /\ fst (login true (request "alice" "p1" "DEV-1") (disk (JArr [record "alice" "p1" ""])))
     = Throw TypeError.
Proof.
  exact (store_without_users_throws true (request "alice" "p1" "DEV-1")
           (disk (JArr [record "alice" "p1" ""])) (JArr [record "alice" "p1" ""])
           eq_refl eq_refl eq_refl).
Defined.

(** ** The hwid of a record binds once *)




(** ** The decision list *)

(** The decision list as C1 states it fails on three inputs: a stored hwid
    of one space is registered over, where the list gives HWID_MISMATCH; a
    save that fails is answered SERVER_ERROR, where the list gives
    HWID_REGISTERED; and on a file that holds a JSON array the handler
    throws and gives no code. *)
Lemma claimed_decision_list_fails :
  (fst (login true (request "alice" "p1" "DEV-1") (disk (store [record "alice" "p1" " "])))
   = Normal hwid_registered
   /\ claimed_code (request "alice" "p1" "DEV-1") (store [record "alice" "p1" " "])
      = HWID_MISMATCH)
  /\ (fst (login false (request "alice" "p1" "DEV-1") (disk (store [record "alice" "p1" ""])))
      = Normal server_error
      /\ claimed_code (request "alice" "p1" "DEV-1") (store [record "alice" "p1" ""])
         = HWID_REGISTERED)
  /\ fst (login true (request "alice" "p1" "DEV-1") (disk (JArr []))) = Throw TypeError.
Proof. repeat split. Qed.

(** C1, amended: on a store whose [users] is an array of records that are
    not [null] and whose hwid is absent, falsy or a string, every login
    request gets one response, with the code of the first rule that matches:
    MISSING_FIELDS if username or password is falsy; else HWID_REQUIRED if
    hwid is absent, not a string, or blank; else INVALID_CREDENTIALS if no
    record has the username or the password of the first such record
    differs; else, if the hwid of that record is absent, falsy or blank,
    HWID_REGISTERED when the save goes through and SERVER_ERROR when it
    fails; else HWID_MISMATCH if the stored hwid differs from the supplied
    one; else OK. *)
Theorem login_follows_decision_list (ok : bool) (body : value) (w : World) (data : Json) :
  fst (loadUsers w) = Normal data ->
  store_ok data = true ->
  exists r, fst (login ok body w) = Normal r /\ code r = decided_code ok body data.
Proof.
  intros Hd Hok. apply loadUsers_loaded in Hd. subst data.
  rewrite login_run. unfold outcome, verdict, decided_code.
  destruct (negb (truthy (field body (lit "username")))
            || negb (truthy (field body (lit "password")))); [eexists; split; reflexivity|].
  destruct (hwid_missing (field body (lit "hwid"))); [eexists; split; reflexivity|].
  destruct (lookup_user_ok _ (field body (lit "username")) Hok) as (found & -> & <- & Ht).
  destruct found as [[i user]|]; simpl; [|eexists; split; reflexivity].
  destruct (negb (strict_eq (prop user (lit "password")) (field body (lit "password"))));
    [eexists; split; reflexivity|].
  rewrite (Ht i user eq_refl). simpl.
  destruct (unbound (prop user (lit "hwid"))).
  - destruct ok; eexists; split; reflexivity.
  - destruct (negb (strict_eq (prop user (lit "hwid")) (field body (lit "hwid"))));
      eexists; split; reflexivity.
Qed.

Lemma login_follows_decision_list_witness :
  exists r,
    fst (login true (request "alice" "p1" "DEV-2") (disk (store [record "alice" "p1" "DEV-1"])))
    = Normal r
    /\ code r = HWID_MISMATCH.
Proof.
  exact (login_follows_decision_list true (request "alice" "p1" "DEV-2")
           (disk (store [record "alice" "p1" "DEV-1"])) (store [record "alice" "p1" "DEV-1"])
           eq_refl eq_refl).
Defined.

(** * Further properties of the store and of the handler *)

(** ** Saving and loading *)

Lemma written_number_again (x : float) : written (written (JNum x)) = written (JNum x).
Proof.
  simpl. destruct (is_nan x || is_infinity x) eqn:H1; [reflexivity|].
  destruct (is_zero x) eqn:H2; [reflexivity|].
  simpl. rewrite H1, H2. reflexivity.
Qed.

(** Writing a document that was read back changes nothing more. *)
Lemma written_again (j : Json) : written (written j) = written j.
Proof.
  induction j as [| b | x | s | items IH | props IH] using Json_nested_ind;
    try reflexivity.
  - apply written_number_again.
  - cbn [written]. f_equal. rewrite List.map_map.
    induction IH as [|u items Hu _ IHitems]; simpl; [reflexivity|].
    rewrite Hu. f_equal. exact IHitems.
  - cbn [written]. f_equal. rewrite List.map_map.
    induction IH as [|[k v] props Hv _ IHprops]; simpl; [reflexivity|].
    simpl in Hv. rewrite Hv. f_equal. exact IHprops.
Qed.

(** A plain document reads back as it was written. *)
Lemma written_plain (j : Json) : plain j = true -> written j = j.
Proof.
  induction j as [| b | x | s | items IH | props IH] using Json_nested_ind;
    try reflexivity.
  - unfold plain, plain_number. simpl. intros H. apply negb_true_iff in H.
    apply orb_false_iff in H as [H ->]. rewrite H. reflexivity.
  - cbn [plain written]. intros H. f_equal.
    induction IH as [|u items Hu _ IHitems]; simpl; [reflexivity|].
    simpl in H. apply andb_true_iff in H as [H1 H2].
    rewrite (Hu H1), (IHitems H2). reflexivity.
  - cbn [plain written]. intros H. f_equal.
    induction IH as [|[k v] props Hv _ IHprops]; simpl; [reflexivity|].
    simpl in H, Hv. apply andb_true_iff in H as [H1 H2].
    rewrite (Hv H1), (IHprops H2). reflexivity.
Qed.

(** X1: a document whose numbers are all finite and not zero (a store of
    records with string fields, for one) that [saveUsers] has written is
    what the next [loadUsers] returns, exactly, and that load logs nothing. *)
Theorem save_then_load_plain (data : Json) (w : World) :
  plain data = true ->
  fst (saveUsers true data w) = Normal true
  /\ fst (loadUsers (snd (saveUsers true data w))) = Normal data
  /\ console (snd (loadUsers (snd (saveUsers true data w)))) = console w.
Proof.
  intros Hp. rewrite saveUsers_run. cbn [fst snd]. split; [reflexivity|].
  rewrite loadUsers_run. simpl. unfold JSON_stringify.
  rewrite (written_plain data Hp). auto.
Qed.

Lemma save_then_load_plain_witness :
  fst (loadUsers (snd (saveUsers true (store [record "alice" "p1" " DEV-1 "; record "bob" "p2" ""])
                         {| users_json := Absent; console := []; fs_calls := [] |})))
  = Normal (store [record "alice" "p1" " DEV-1 "; record "bob" "p2" ""]).
Proof.
  exact (proj1 (proj2 (save_then_load_plain
                         (store [record "alice" "p1" " DEV-1 "; record "bob" "p2" ""])
                         {| users_json := Absent; console := []; fs_calls := [] |} eq_refl))).
Defined.

(** X2: what [loadUsers] returns after a [saveUsers] is stable: saved again,
    in any world, it is loaded back as the same document, whatever numbers
    the first document held. *)
Theorem saved_document_is_stable (data loaded_back : Json) (w w' : World) :
  fst (loadUsers (snd (saveUsers true data w))) = Normal loaded_back ->
  fst (loadUsers (snd (saveUsers true loaded_back w'))) = Normal loaded_back.
Proof.
  rewrite !saveUsers_run. cbn [fst snd]. rewrite !loadUsers_run. simpl.
  unfold JSON_stringify. intros H. injection H as <-. rewrite written_again. reflexivity.
Qed.

Lemma saved_document_is_stable_witness :
  fst (loadUsers (snd (saveUsers true (JArr [JNull; JNum 0; JNum 1.5; JStr (lit "x")])
                         (disk JNull))))
  = Normal (JArr [JNull; JNum 0; JNum 1.5; JStr (lit "x")]).
Proof.
  exact (saved_document_is_stable
           (JArr [JNum infinity; JNum (-0); JNum 1.5; JStr (lit "x")])
           (JArr [JNull; JNum 0; JNum 1.5; JStr (lit "x")])
           (disk JNull) (disk JNull) eq_refl).
Defined.


(** X4: [loadUsers] never throws and only reads: the file is as it was, no
    write call is made, an absent file is tested for existence but not
    read, and a second load returns the same document as the first. *)
Theorem loadUsers_only_reads (w : World) :
  exists data,
    fst (loadUsers w) = Normal data
    /\ users_json (snd (loadUsers w)) = users_json w
    /\ (exists calls,
          fs_calls (snd (loadUsers w)) = fs_calls w ++ calls
          /\ ~ In WriteFileSync calls
          /\ (users_json w = Absent -> calls = [ExistsSync]))
    /\ fst (loadUsers (snd (loadUsers w))) = Normal data.
Proof.
  exists (loaded (users_json w)). rewrite !loadUsers_run. simpl fst. simpl snd.
  rewrite after_load_file. split; [reflexivity|]. split; [reflexivity|].
  split; [|reflexivity].
  destruct w as [f out calls]. destruct f as [| | [|j]]; simpl.
  - exists [ExistsSync]. repeat split. simpl. intuition discriminate.
  - exists [ExistsSync; ReadFileSync]. rewrite <- app_assoc.
    repeat split; [simpl; intuition discriminate|discriminate].
  - exists [ExistsSync; ReadFileSync]. rewrite <- app_assoc.
    repeat split; [simpl; intuition discriminate|discriminate].
  - exists [ExistsSync; ReadFileSync]. rewrite <- app_assoc.
    repeat split; [simpl; intuition discriminate|discriminate].
Qed.

(** ** What the handler sends and when it throws *)

Lemma outcome_response (ok : bool) (body : value) (w : World) (r : Response) :
  fst (outcome ok body w) = Normal r -> In r responses.
Proof.
  unfold outcome.
  destruct (verdict_cases body (loaded (users_json w)))
    as [H|[H|[H|[H|[H|[[e H]|[d H]]]]]]]; rewrite H; simpl;
    try (intros E; injection E as <-; tauto); try discriminate.
  destruct ok; simpl; intros E; injection E as <-; tauto.
Qed.

(** X5: every response of the handler is one of seven fixed ones, so its
    fields agree: [success] is [true] exactly when the status is 200, and
    exactly when the code is OK or HWID_REGISTERED; and the code fixes the
    status (400, 400, 401, 403, 500 for the five failures). *)
Theorem response_fields_agree (ok : bool) (body : value) (w : World) (r : Response) :
  fst (login ok body w) = Normal r ->
  In r responses
  /\ (success r = true <-> status r = 200%Z)
  /\ (success r = true <-> code r = OK \/ code r = HWID_REGISTERED)
  /\ status r = match code r with
                | OK | HWID_REGISTERED => 200
                | MISSING_FIELDS | HWID_REQUIRED => 400
                | INVALID_CREDENTIALS => 401
                | HWID_MISMATCH => 403
                | SERVER_ERROR => 500
                end%Z.
Proof.
  rewrite login_run. intros Hr. apply outcome_response in Hr.
  split; [exact Hr|].
  simpl in Hr.
  destruct Hr as [<-|[<-|[<-|[<-|[<-|[<-|[<-|[]]]]]]]]; simpl;
    (split; [|split]); try reflexivity; split; intros H;
    try discriminate H; try reflexivity; auto; destruct H; discriminate.
Qed.

Lemma response_fields_agree_witness :
  success hwid_mismatch = true <-> status hwid_mismatch = 200%Z.
Proof.
  exact (proj1 (proj2 (response_fields_agree true (request "alice" "p1" "DEV-2")
                         (disk (store [record "alice" "p1" "DEV-1"])) hwid_mismatch eq_refl))).
Defined.

Lemma find_from_throws (username : value) (items : list Json) (i : nat) (e : Exn) :
  find_from (username_is username) items i = Throw e -> e = TypeError.
Proof.
  revert i. induction items as [|u items IH]; intros i; simpl; [discriminate|].
  destruct (username_is username u) as [[|]|e'] eqn:Hu; [discriminate|apply IH|].
  intros H. injection H as <-.
  unfold username_is in Hu. destruct u; simpl in Hu; try discriminate.
  injection Hu as <-. reflexivity.
Qed.

Lemma lookup_user_throws (data : Json) (username : value) (e : Exn) :
  lookup_user data username = Throw e -> e = TypeError.
Proof.
  unfold lookup_user.
  destruct data as [| b | x | t | items | ps]; simpl;
    try (intros H; injection H as <-; reflexivity).
  destruct (assoc (lit "users") ps) as [[| b | x | t | items | ps']|]; simpl;
    try (intros H; injection H as <-; reflexivity).
  apply find_from_throws.
Qed.

(** X6: the only exception that leaves the handler is a TypeError, and only
    for a request that passed steps 1 and 2; when it is thrown the file is
    as it was and no write call has been made.  A file that cannot be read
    or parsed never makes the handler throw. *)
Theorem login_throws_only_type_errors (ok : bool) (body : value) (w : World) (e : Exn) :
  fst (login ok body w) = Throw e ->
  e = TypeError
  /\ well_formed body = true
  /\ readable (users_json w) = true
  /\ users_json (snd (login ok body w)) = users_json w
  /\ exists calls,
       fs_calls (snd (login ok body w)) = fs_calls w ++ calls /\ ~ In WriteFileSync calls.
Proof.
  intros He.
  assert (Hread : readable (users_json w) = true).
  { destruct (readable (users_json w)) eqn:Hr; [reflexivity|].
    exfalso. revert He. rewrite login_run. unfold outcome.
    assert (Hl : loaded (users_json w) = empty_store).
    { destruct (users_json w) as [| | [|j]]; try reflexivity. discriminate. }
    rewrite Hl. unfold verdict.
    destruct (negb _ || negb _); [discriminate|].
    destruct (hwid_missing _); discriminate. }
  revert He. rewrite login_run. unfold outcome, verdict, well_formed.
  destruct (truthy (field body (lit "username"))); [|discriminate].
  destruct (truthy (field body (lit "password"))); [|discriminate].
  cbn [negb orb andb].
  destruct (hwid_missing (field body (lit "hwid"))); [discriminate|].
  assert (Hcalls := after_load_calls w). assert (Hfile := after_load_file w).
  destruct (lookup_user (loaded (users_json w)) (field body (lit "username")))
    as [[[i user]|]|e'] eqn:Hl.
  - destruct (negb (strict_eq _ _)); [discriminate|].
    destruct (negb (testable _)).
    + simpl. intros H. injection H as <-. auto.
    + destruct (unbound _); [destruct ok; discriminate|].
      destruct (negb (strict_eq _ _)); discriminate.
  - discriminate.
  - simpl. intros H. injection H as <-. apply lookup_user_throws in Hl. auto.
Qed.

Lemma login_throws_only_type_errors_witness :
  users_json (snd (login true (request "alice" "p1" "DEV-1")
                     (disk (store [JNull; record "alice" "p1" ""]))))
  = Holds (Encodes (store [JNull; record "alice" "p1" ""])).
Proof.
  destruct (login_throws_only_type_errors true (request "alice" "p1" "DEV-1")
              (disk (store [JNull; record "alice" "p1" ""])) TypeError eq_refl)
    as (_ & _ & _ & H & _).
  exact H.
Defined.

(** X7: a request that does not pass the checks on its own fields is
    answered without any call to the file system, whatever the file holds:
    MISSING_FIELDS when username or password is falsy, also when the hwid
    is missing too, and HWID_REQUIRED otherwise, that is when the hwid is
    absent, not a string, or made of white space only. *)
Theorem validation_touches_nothing (ok : bool) (body : value) (w : World) :
  well_formed body = false ->
  login ok body w
  = (Normal (if truthy (field body (lit "username")) && truthy (field body (lit "password"))
             then hwid_required else missing_fields), w).
Proof.
  unfold well_formed. intros Hwf. rewrite login_run. unfold outcome, verdict.
  destruct (truthy (field body (lit "username"))); [|reflexivity].
  destruct (truthy (field body (lit "password"))); [|reflexivity].
  simpl in Hwf. apply negb_false_iff in Hwf. simpl. rewrite Hwf. reflexivity.
Qed.

Lemma validation_touches_nothing_witness :
  login true (request "alice" "p1" "   ") (disk JNull) = (Normal hwid_required, disk JNull).
Proof.
  exact (validation_touches_nothing true (request "alice" "p1" "   ") (disk JNull) eq_refl).
Defined.

(** ** Credentials and devices *)

(** X8: passwords are compared as they are, code unit by code unit: for
    the record that the lookup selects, with a string password, a request
    with a string password is answered INVALID_CREDENTIALS exactly when the
    two strings differ. *)
Theorem password_is_compared_exactly
    (ok : bool) (body : value) (w : World) (data : Json) (i : nat) (user : Json)
    (stored sent : jsstring) :
  well_formed body = true ->
  fst (loadUsers w) = Normal data ->
  lookup_user data (field body (lit "username")) = Normal (Some (i, user)) ->
  prop user (lit "password") = Some (JStr stored) ->
  field body (lit "password") = Some (JStr sent) ->
  testable (prop user (lit "hwid")) = true ->
  exists r,
    fst (login ok body w) = Normal r
    /\ (code r = INVALID_CREDENTIALS <-> stored <> sent).
Proof.
  intros Hwf Hd Hl Hs Hp Ht. apply loadUsers_loaded in Hd. subst data.
  rewrite login_run. unfold outcome, verdict.
  destruct (well_formed_elim _ Hwf) as [-> ->]. rewrite Hl, Hs, Hp, Ht.
  cbn [strict_eq negb].
  destruct (str_eqb stored sent) eqn:He.
  - apply str_eqb_eq in He. cbn [negb].
    destruct (unbound (prop user (lit "hwid"))).
    + destruct ok; eexists; (split; [reflexivity|]); simpl; split;
        [discriminate|contradiction| discriminate|contradiction].
    + destruct (negb (strict_eq _ _)); eexists; (split; [reflexivity|]); simpl; split;
        try discriminate; contradiction.
  - eexists. split; [reflexivity|]. simpl. split; [|reflexivity].
    intros _ Heq. apply str_eqb_eq in Heq. congruence.
Qed.

Lemma password_is_compared_exactly_witness :
  exists r,
    fst (login true (request "alice" "P1" "DEV-1") (disk (store [record "alice" "p1" "DEV-1"])))
    = Normal r
    /\ (code r = INVALID_CREDENTIALS <-> lit "p1" <> lit "P1").
Proof.
  exact (password_is_compared_exactly true (request "alice" "P1" "DEV-1")
           (disk (store [record "alice" "p1" "DEV-1"])) (store [record "alice" "p1" "DEV-1"])
           0 (record "alice" "p1" "DEV-1") (lit "p1") (lit "P1")
           eq_refl eq_refl eq_refl eq_refl eq_refl eq_refl).
Defined.

(** X9: once the record is bound to an hwid that is not blank, a request
    with its credentials is answered OK when it carries exactly that hwid and
    HWID_MISMATCH when it carries any other string, one that differs only by
    white space around it included; the file stays as it was either way. *)
Theorem bound_hwid_is_compared_exactly
    (ok : bool) (body : value) (w : World) (data : Json) (i : nat) (user : Json)
    (stored sent : jsstring) :
  well_formed body = true ->
  fst (loadUsers w) = Normal data ->
  lookup_user data (field body (lit "username")) = Normal (Some (i, user)) ->
  strict_eq (prop user (lit "password")) (field body (lit "password")) = true ->
  prop user (lit "hwid") = Some (JStr stored) ->
  blank stored = false ->
  field body (lit "hwid") = Some (JStr sent) ->
  (sent = stored -> fst (login ok body w) = Normal login_ok)
  /\ (sent <> stored -> fst (login ok body w) = Normal hwid_mismatch)
  /\ users_json (snd (login ok body w)) = users_json w.
Proof.
  intros Hwf Hd Hl Hp Hs Hb Hh. apply loadUsers_loaded in Hd. subst data.
  rewrite login_run. unfold outcome, verdict.
  destruct (well_formed_elim _ Hwf) as [-> ->]. rewrite Hl, Hp, Hs, Hh.
  cbn [negb testable is_string orb unbound strict_eq]. rewrite Hb.
  destruct (str_eqb stored sent) eqn:He; cbn [negb fst snd].
  - apply str_eqb_eq in He. split; [reflexivity|]. split; [congruence|apply after_load_file].
  - split; [|split; [reflexivity|apply after_load_file]].
    intros ->. rewrite str_eqb_refl in He. discriminate.
Qed.

Lemma bound_hwid_is_compared_exactly_witness :
  fst (login true (request "alice" "p1" " DEV-1") (disk (store [record "alice" "p1" "DEV-1"])))
  = Normal hwid_mismatch.
Proof.
  refine (proj1 (proj2 (bound_hwid_is_compared_exactly true (request "alice" "p1" " DEV-1")
            (disk (store [record "alice" "p1" "DEV-1"])) (store [record "alice" "p1" "DEV-1"])
            0 (record "alice" "p1" "DEV-1") (lit "DEV-1") (lit " DEV-1")
            eq_refl eq_refl eq_refl eq_refl eq_refl eq_refl eq_refl)) _).
  discriminate.
Defined.

(** X10: a response with [success: true] is sent only when the lookup
    selected a record whose password is the supplied one, and then a load of
    the store shows that record bound to the hwid of the request, a string
    that is not blank. *)
Theorem success_means_matched_and_bound
    (ok : bool) (body : value) (w : World) (r : Response) :
  fst (login ok body w) = Normal r ->
  success r = true ->
  exists data i user h,
    fst (loadUsers w) = Normal data
    /\ lookup_user data (field body (lit "username")) = Normal (Some (i, user))
    /\ strict_eq (prop user (lit "password")) (field body (lit "password")) = true
    /\ field body (lit "hwid") = Some (JStr h)
    /\ blank h = false
    /\ stored_hwid (snd (login ok body w)) i = Some (Some (JStr h)).
Proof.
  rewrite login_run, loadUsers_run. unfold outcome, verdict. simpl fst.
  set (data := loaded (users_json w)).
  destruct (truthy (field body (lit "username"))) eqn:Hn;
    [|intros H; injection H as <-; discriminate].
  destruct (negb true || negb (truthy (field body (lit "password"))));
    [intros H; injection H as <-; discriminate|].
  destruct (hwid_missing (field body (lit "hwid"))) eqn:Hh;
    [intros H; injection H as <-; discriminate|].
  destruct (field body (lit "hwid")) as [[| b | x | h | items | ps]|] eqn:Hf;
    try discriminate Hh.
  simpl in Hh.
  destruct (lookup_user data (field body (lit "username"))) as [[[i user]|]|e] eqn:Hl;
    [|intros H; injection H as <-; discriminate|discriminate].
  destruct (strict_eq (prop user (lit "password")) (field body (lit "password"))) eqn:Hp;
    cbn [negb]; [|intros H; injection H as <-; discriminate].
  destruct (testable (prop user (lit "hwid"))); cbn [negb]; [|discriminate].
  destruct (unbound (prop user (lit "hwid"))) eqn:Hu.
  - destruct ok; simpl; intros H; injection H as <-; [|discriminate].
    intros _. exists data, i, user, h. repeat split; try assumption.
    apply (registered_hwid (field body (lit "username"))); assumption.
  - destruct (strict_eq (prop user (lit "hwid")) (Some (JStr h))) eqn:He; cbn [negb];
      intros H; injection H as <-; [|discriminate].
    intros _. exists data, i, user, h. repeat split; try assumption.
    cbn [snd]. rewrite (stored_hwid_same_file _ w i (after_load_file w)), stored_hwid_loaded.
    unfold hwid_at. fold data.
    apply lookup_user_some in Hl as (items & -> & -> & _).
    destruct (prop user (lit "hwid")) as [[| b | x | s | its | ps]|]; try discriminate He.
    simpl in He. apply str_eqb_eq in He. subst s. reflexivity.
Qed.

Lemma success_means_matched_and_bound_witness :
  exists data i user h,
    fst (loadUsers (disk (store [record "alice" "p1" ""]))) = Normal data
    /\ lookup_user data (field (request "alice" "p1" "DEV-1") (lit "username"))
       = Normal (Some (i, user))
    /\ strict_eq (prop user (lit "password")) (field (request "alice" "p1" "DEV-1") (lit "password"))
       = true
    /\ field (request "alice" "p1" "DEV-1") (lit "hwid") = Some (JStr h)
    /\ blank h = false
    /\ stored_hwid (snd (login true (request "alice" "p1" "DEV-1")
                           (disk (store [record "alice" "p1" ""])))) i
       = Some (Some (JStr h)).
Proof.
  exact (success_means_matched_and_bound true (request "alice" "p1" "DEV-1")
           (disk (store [record "alice" "p1" ""])) hwid_registered eq_refl eq_refl).
Defined.

(** ** The records along a run *)



(** One request leaves the file as it is, or writes the store with the hwid
    of the request put in the record that the lookup selected, which was
    an object with an unbound hwid. *)
Lemma login_step_records (ok : bool) (body : value) (w : World) :
  users_json (snd (login ok body w)) = users_json w
  \/ exists items k ps h,
       records (loaded (users_json w)) = Some items
       /\ lookup_user (loaded (users_json w)) (field body (lit "username"))
          = Normal (Some (k, JObj ps))
       /\ items !! k = Some (JObj ps)
       /\ unbound (prop (JObj ps) (lit "hwid")) = true
       /\ field body (lit "hwid") = Some (JStr h)
       /\ blank h = false
       /\ records (loaded (users_json (snd (login ok body w))))
          = Some (List.map written (<[k := JObj (put (lit "hwid") (JStr h) ps)]> items)).
Proof.
  rewrite login_run. unfold outcome.
  destruct (verdict body (loaded (users_json w))) as [r | e | r | data'] eqn:Hv;
    cbn [snd]; try (left; first [reflexivity | apply after_load_file]).
  destruct ok; cbn [snd];
    [|left; unfold after_failed_save; simpl; apply after_load_file].
  right. apply verdict_registering_inv in Hv as (k & user & h & Hn & Hh & Hb & Hl & Hu & ->).
  destruct (lookup_user_some _ _ _ _ Hl) as (items & Hr & Hk & Hm).
  destruct (matching_is_object _ _ Hn Hm) as [ps ->].
  exists items, k, ps, h. repeat split; try assumption.
  unfold after_save, JSON_stringify. simpl users_json. simpl loaded.
  rewrite records_written. simpl assign.
  rewrite (records_with_user _ _ _ _ Hr). reflexivity.
Qed.







(** ** Stores of proper accounts *)

Lemma testable_written (v : value) :
  testable v = true -> testable (option_map written v) = true.
Proof.
  destruct v as [[| b | x | t | items | ps]|]; try (intros H; exact H).
  unfold testable. simpl.
  destruct (is_nan x || is_infinity x) eqn:H1; [reflexivity|].
  destruct (is_zero x) eqn:H2; [reflexivity|].
  apply orb_false_iff in H1 as [-> _]. simpl. discriminate.
Qed.

Lemma account_ok_written (u : Json) : account_ok u = true -> account_ok (written u) = true.
Proof.
  unfold account_ok. destruct u as [| b | x | t | items | ps]; try discriminate.
  simpl is_object. cbn [andb]. rewrite prop_written. apply testable_written.
Qed.

Lemma accounts_ok_after_registration (items : list Json) (k : nat)
    (ps : list (jsstring * Json)) (h : jsstring) :
  forallb account_ok items = true ->
  forallb account_ok (List.map written (<[k := JObj (put (lit "hwid") (JStr h) ps)]> items))
  = true.
Proof.
  intros Hall. rewrite forallb_forall in *. intros x Hx.
  apply in_map_iff in Hx as (u & <- & Hu). apply account_ok_written.
  apply list_elem_of_In, list_elem_of_lookup in Hu as (n & Hn).
  destruct (Nat.eq_dec n k) as [->|Hnk].
  - pose proof (lookup_lt_Some _ _ _ Hn) as Hlt. rewrite length_insert in Hlt.
    rewrite list_lookup_insert_eq in Hn by exact Hlt.
    injection Hn as <-. unfold account_ok, prop. cbn [is_object andb get].
    rewrite assoc_put. reflexivity.
  - rewrite list_lookup_insert_ne in Hn by congruence.
    apply Hall, list_elem_of_In. eapply list_elem_of_lookup_2. exact Hn.
Qed.

Lemma accounts_ok_store_ok (data : Json) : accounts_ok data = true -> store_ok data = true.
Proof.
  unfold accounts_ok, store_ok. destruct (records data) as [items|]; [|discriminate].
  rewrite !forallb_forall. intros H u Hu. specialize (H u Hu).
  unfold account_ok in H. unfold record_ok.
  destruct u; try discriminate H; exact H.
Qed.

(** On a store of proper accounts one request is answered, and leaves such a store. *)
Lemma login_on_accounts (ok : bool) (body : value) (w : World) :
  accounts_ok (loaded (users_json w)) = true ->
  (exists r, fst (login ok body w) = Normal r)
  /\ accounts_ok (loaded (users_json (snd (login ok body w)))) = true.
Proof.
  intros Hok. split.
  - rewrite login_run. unfold outcome, verdict.
    destruct (negb _ || negb _); [eauto|].
    destruct (hwid_missing _); [eauto|].
    destruct (lookup_user_ok _ (field body (lit "username")) (accounts_ok_store_ok _ Hok))
      as (found & -> & _ & Ht).
    destruct found as [[i user]|]; [|eauto].
    destruct (negb (strict_eq _ _)); [eauto|].
    rewrite (Ht i user eq_refl). cbn [negb].
    destruct (unbound _); [destruct ok; eauto|].
    destruct (negb (strict_eq _ _)); eauto.
  - destruct (login_step_records ok body w)
      as [->|(items & n & ps & h & Hr & _ & _ & _ & _ & _ & Hr')]; [exact Hok|].
    unfold accounts_ok in *. rewrite Hr'. rewrite Hr in Hok.
    apply accounts_ok_after_registration. exact Hok.
Qed.

(** X13: on a store whose [users] is an array of objects, each with an hwid
    that is absent, falsy or a string, no request of any sequence makes the
    handler throw: each one gets a response; and the store is still of
    that form after the sequence, whatever was registered and whichever
    writes failed.  An absent or unreadable file counts as such a store. *)
Theorem proper_store_never_throws (reqs : list Request) (w : World) (data : Json) :
  fst (loadUsers w) = Normal data ->
  accounts_ok data = true ->
  Forall (fun out => exists r, out = Normal r) (fst (serve reqs w))
  /\ exists data',
       fst (loadUsers (snd (serve reqs w))) = Normal data' /\ accounts_ok data' = true.
Proof.
  intros Hd Hok. apply loadUsers_loaded in Hd. subst data.
  revert w Hok. induction reqs as [|q reqs IH]; intros w Hok; simpl.
  - split; [constructor|]. rewrite loadUsers_run. eauto.
  - destruct (login_on_accounts (write_succeeds q) (body q) w Hok) as [Hout Hnext].
    destruct (login (write_succeeds q) (body q) w) as [out w1]. simpl in Hout, Hnext.
    destruct (IH w1 Hnext) as [Hall Hend].
    destruct (serve reqs w1) as [outs w2]. simpl in *.
    split; [constructor; assumption|exact Hend].
Qed.

Lemma proper_store_never_throws_witness :
  Forall (fun out => exists r, out = Normal r)
         (fst (serve [ {| write_succeeds := false; body := request "alice" "p1" "DEV-1" |};
                       {| write_succeeds := true; body := Some (JArr []) |};
                       {| write_succeeds := true; body := request "alice" "p1" "DEV-2" |} ]
                 (disk (store [record "alice" "p1" " "])))).
Proof.
  exact (proj1 (proper_store_never_throws
                  [ {| write_succeeds := false; body := request "alice" "p1" "DEV-1" |};
                    {| write_succeeds := true; body := Some (JArr []) |};
                    {| write_succeeds := true; body := request "alice" "p1" "DEV-2" |} ]
                  (disk (store [record "alice" "p1" " "])) (store [record "alice" "p1" " "])
                  eq_refl eq_refl)).
Defined.

(** X14: a [null] entry in [users] makes the handler throw a TypeError for
    every request that passes steps 1 and 2 and whose username is not that
    of a record before the entry: the callback of [find] reads
    [u.username] on [null]. *)
Theorem null_record_blocks_lookup
    (ok : bool) (body : value) (w : World) (data : Json) (items : list Json) (k : nat) :
  well_formed body = true ->
  fst (loadUsers w) = Normal data ->
  records data = Some items ->
  items !! k = Some JNull ->
  (forall j u, j < k -> items !! j = Some u ->
     u <> JNull
     /\ strict_eq (prop u (lit "username")) (field body (lit "username")) = false) ->
  fst (login ok body w) = Throw TypeError.
Proof.
  intros Hwf Hd Hr Hk Hbefore. apply loadUsers_loaded in Hd. subst data.
  rewrite login_run. unfold outcome, verdict.
  destruct (well_formed_elim _ Hwf) as [-> ->].
  assert (Hl : lookup_user (loaded (users_json w)) (field body (lit "username"))
               = Throw TypeError).
  { revert Hr. unfold lookup_user, records.
    destruct (loaded (users_json w)) as [| b | x | t | its | ps]; try discriminate.
    simpl. destruct (assoc (lit "users") ps) as [[| b | x | t | its | ps']|]; try discriminate.
    intros H. injection H as ->. simpl.
    generalize 0. revert k Hk Hbefore.
    induction items as [|u items IH]; intros k Hk Hbefore n; [discriminate|].
    destruct k as [|k]; simpl in Hk.
    - injection Hk as ->. reflexivity.
    - simpl. destruct (Hbefore 0 u ltac:(lia) eq_refl) as [Hu Hne].
      assert (Hp : username_is (field body (lit "username")) u = Normal false).
      { unfold username_is. unfold prop in Hne.
        destruct u; try contradiction; simpl in *; rewrite ?Hne; try reflexivity. }
      rewrite Hp. apply (IH k Hk).
      intros j u' Hj Hu'. apply (Hbefore (S j) u'); [lia|exact Hu']. }
  rewrite Hl. reflexivity.
Qed.

Lemma null_record_blocks_lookup_witness :
  fst (login true (request "bob" "p2" "DEV-2")
         (disk (store [record "alice" "p1" ""; JNull; record "bob" "p2" ""])))
  = Throw TypeError.
Proof.
  apply (null_record_blocks_lookup true (request "bob" "p2" "DEV-2")
           (disk (store [record "alice" "p1" ""; JNull; record "bob" "p2" ""]))
           (store [record "alice" "p1" ""; JNull; record "bob" "p2" ""])
           [record "alice" "p1" ""; JNull; record "bob" "p2" ""] 1);
    try reflexivity.
  intros [|j] u Hj Hu; [|lia]. injection Hu as <-. split; [discriminate|reflexivity].
Defined.

(** X15: first logins for one account that is not bound, with its
    credentials and hwids that all differ from the first one's, served in
    turn while writes go through on a store of objects: the first one
    served is answered HWID_REGISTERED, every other one HWID_MISMATCH, and
    the store ends with the hwid of the first at the record. *)
Theorem first_served_wins
    (w : World) (data : Json) (items : list Json) (name pw : jsstring)
    (i : nat) (user : Json) (r : Request) (rest : list Request) :
  name <> [] -> pw <> [] ->
  fst (loadUsers w) = Normal data ->
  records data = Some items ->
  forallb is_object items = true ->
  lookup_user data (Some (JStr name)) = Normal (Some (i, user)) ->
  prop user (lit "password") = Some (JStr pw) ->
  testable (prop user (lit "hwid")) = true ->
  unbound (prop user (lit "hwid")) = true ->
  Forall (first_login name pw) (r :: rest) ->
  Forall (fun q => sent_hwid q <> sent_hwid r) rest ->
  fst (serve (r :: rest) w)
  = Normal hwid_registered :: List.map (fun _ => Normal hwid_mismatch) rest
  /\ stored_hwid (snd (serve (r :: rest) w)) i = Some (Some (JStr (sent_hwid r))).
Proof.
  intros Hn Hp Hd Hr Hobj Hl Hpw Ht Hu Hall Hdiff.
  destruct (first_logins_bind_first w data items name pw i user r rest
              Hn Hp Hd Hr Hobj Hl Hpw Ht Hu Hall) as [Houts Hend].
  split; [|exact Hend]. rewrite Houts. f_equal.
  clear - Hdiff. induction Hdiff as [|q rest Hq _ IH]; simpl; [reflexivity|].
  rewrite IH. f_equal.
  destruct (str_eqb (sent_hwid r) (sent_hwid q)) eqn:He; [|reflexivity].
  apply str_eqb_eq in He. congruence.
Qed.

Lemma first_served_wins_witness :
  fst (serve [ {| write_succeeds := true; body := request "alice" "p1" "DEV-2" |};
               {| write_succeeds := true; body := request "alice" "p1" "DEV-1" |};
               {| write_succeeds := true; body := request "alice" "p1" "DEV-3" |} ]
         (disk (store [record "bob" "p2" "X"; record "alice" "p1" ""])))
  = [Normal hwid_registered; Normal hwid_mismatch; Normal hwid_mismatch]
  /\ stored_hwid
       (snd (serve [ {| write_succeeds := true; body := request "alice" "p1" "DEV-2" |};
                     {| write_succeeds := true; body := request "alice" "p1" "DEV-1" |};
                     {| write_succeeds := true; body := request "alice" "p1" "DEV-3" |} ]
               (disk (store [record "bob" "p2" "X"; record "alice" "p1" ""])))) 1
     = Some (Some (JStr (lit "DEV-2"))).
Proof.
  apply (first_served_wins (disk (store [record "bob" "p2" "X"; record "alice" "p1" ""]))
           (store [record "bob" "p2" "X"; record "alice" "p1" ""])
           [record "bob" "p2" "X"; record "alice" "p1" ""]
           (lit "alice") (lit "p1") 1 (record "alice" "p1" ""));
    try reflexivity; try discriminate.
  - repeat constructor.
  - repeat constructor; discriminate.
Defined.

(** ** Credentials that are not strings *)

Lemma strict_eq_composite (a v : value) : composite v = true -> strict_eq a v = false.
Proof.
  destruct v as [[| b | x | t | items | ps]|]; try discriminate; intros _;
    destruct a as [[| b' | x' | t' | items' | ps']|]; reflexivity.
Qed.

Lemma find_none (pred : Json -> bool) (items : list Json) :
  (forall u, pred u = false) -> List.find pred items = None.
Proof.
  intros H. induction items as [|u items IH]; simpl; [reflexivity|].
  rewrite H. exact IH.
Qed.

(** X16: a username or a password that is an array or an object is never
    accepted: on a store on which the lookup cannot throw, a request that
    passes steps 1 and 2 with such a field is answered INVALID_CREDENTIALS
    and the file is left as it was, whatever the records hold. *)
Theorem composite_credentials_are_refused
    (ok : bool) (body : value) (w : World) (data : Json) :
  well_formed body = true ->
  fst (loadUsers w) = Normal data ->
  store_ok data = true ->
  composite (field body (lit "username")) = true
  \/ composite (field body (lit "password")) = true ->
  fst (login ok body w) = Normal invalid_credentials
  /\ users_json (snd (login ok body w)) = users_json w.
Proof.
  intros Hwf Hd Hok Hc. apply loadUsers_loaded in Hd. subst data.
  rewrite login_run. unfold outcome, verdict.
  destruct (well_formed_elim _ Hwf) as [-> ->].
  destruct (lookup_user_ok _ (field body (lit "username")) Hok) as (found & -> & Hf & _).
  destruct found as [[i user]|]; [|split; [reflexivity|apply after_load_file]].
  destruct Hc as [Hc|Hc].
  - exfalso. unfold record_for in Hf.
    destruct (records (loaded (users_json w))) as [items|]; [|discriminate].
    rewrite find_none in Hf; [discriminate|].
    intros u. apply strict_eq_composite. exact Hc.
  - rewrite (strict_eq_composite _ _ Hc). split; [reflexivity|apply after_load_file].
Qed.

Lemma composite_credentials_are_refused_witness :
  fst (login true
         (Some (JObj [(lit "username", JStr (lit "alice"));
                      (lit "password", JObj [(lit "$ne", JNull)]);
                      (lit "hwid", JStr (lit "DEV-1"))]))
         (disk (store [record "alice" "p1" ""])))
  = Normal invalid_credentials.
Proof.
  refine (proj1 (composite_credentials_are_refused true
                   (Some (JObj [(lit "username", JStr (lit "alice"));
                                (lit "password", JObj [(lit "$ne", JNull)]);
                                (lit "hwid", JStr (lit "DEV-1"))]))
                   (disk (store [record "alice" "p1" ""])) (store [record "alice" "p1" ""])
                   eq_refl eq_refl eq_refl _)).
  right. reflexivity.
Defined.
